(** * placefinder-th: the Thai zipcode lookup service of [src/app.py]

    A shallow embedding of the module: the mapping builder
    [fetch_and_build_mapping], the text utilities [normalize_text] and
    [is_match], the flattened index ([RECORDS], [UNIQUE_*]) and the request
    handlers of the JSON API and of the HTML pages.

    Conventions of the embedding.
    - A Python [str] is a [string]; a character is a code point in the range
      0..255 (the Latin-1 block), and [isspace], [isdigit], [lower] below are
      Python's predicates and case mapping on that range.  Strings compare by
      code point, as [String.compare] does.
    - A value that may be [None] is an [option].
    - A [dict] is an association list in insertion order (Python dictionaries
      iterate in insertion order, and [RECORDS] is built by such an iteration).
    - Module-level globals are explicit arguments of the handlers.
    - A handler returns the pair (body, status) it returns in the source. *)

From Stdlib Require Import List String Ascii Bool Arith ZArith NArith QArith Lia.
From Stdlib Require Import Sorted Permutation.
From Stdlib Require OrderedTypeEx DecimalString.
Import ListNotations.

Open Scope string_scope.
Open Scope Z_scope.

(** ** Python's [str] primitives *)

Module Py.

Definition ord (c : ascii) : N := N_of_ascii c.

Definition between (lo hi n : N) : bool := ((lo <=? n) && (n <=? hi))%N.

(** [c.isspace()]: TAB..CR, FS..US, SPACE, NEL (0x85), NBSP (0xA0).  The
    regular expression class [\s] on a [str] pattern matches the same set. *)
Definition isspace_char (c : ascii) : bool :=
  between 9 13 (ord c) || between 28 32 (ord c)
  || (ord c =? 133)%N || (ord c =? 160)%N.

(** [c.isdigit()]: the decimal digits and the superscripts two, three (0xB2,
    0xB3) and one (0xB9), whose Numeric_Type is Digit. *)
Definition isdigit_char (c : ascii) : bool :=
  between 48 57 (ord c) || between 178 179 (ord c) || (ord c =? 185)%N.

(** [c.lower()]: A..Z and the Latin-1 capitals 0xC0..0xDE except the
    multiplication sign 0xD7 move up by 32. *)
Definition lower_char (c : ascii) : ascii :=
  if between 65 90 (ord c)
     || (between 192 222 (ord c) && negb (ord c =? 215)%N)
  then ascii_of_N (ord c + 32)
  else c.

Fixpoint lower (s : string) : string :=
  match s with
  | EmptyString => EmptyString
  | String c t => String (lower_char c) (lower t)
  end.

(** Removal of the leading and of the trailing characters that satisfy [p]. *)
Fixpoint lstrip_by (p : ascii -> bool) (s : string) : string :=
  match s with
  | EmptyString => EmptyString
  | String c t => if p c then lstrip_by p t else s
  end.

Fixpoint rstrip_by (p : ascii -> bool) (s : string) : string :=
  match s with
  | EmptyString => EmptyString
  | String c t =>
      match rstrip_by p t with
      | EmptyString => if p c then EmptyString else String c EmptyString
      | t' => String c t'
      end
  end.

(** [s.strip()] *)
Definition strip (s : string) : string :=
  rstrip_by isspace_char (lstrip_by isspace_char s).

(** [re.sub(r"\s+", " ", s)]: every maximal run of whitespace becomes one
    space.  [in_run] tells that the previous character was whitespace, whose
    run has already produced its space. *)
Fixpoint sub_ws (in_run : bool) (s : string) : string :=
  match s with
  | EmptyString => EmptyString
  | String c t =>
      if isspace_char c
      then if in_run then sub_ws true t else String " " (sub_ws true t)
      else String c (sub_ws false t)
  end.

(** [s.isdigit()]: at least one character, all of them digits. *)
Fixpoint all_digits (s : string) : bool :=
  match s with
  | EmptyString => true
  | String c t => isdigit_char c && all_digits t
  end.

Definition isdigit (s : string) : bool :=
  match s with
  | EmptyString => false
  | _ => all_digits s
  end.

(** [s.startswith(p)] *)
Definition startswith (s p : string) : bool := String.prefix p s.

(** [q in c] on strings; [c.find(q) != -1] is the same test. *)
Fixpoint contains (c q : string) : bool :=
  String.prefix q c
  || match c with
     | EmptyString => false
     | String _ t => contains t q
     end.

(** Truth value of a string: [if s:] holds when [s] is not empty. *)
Definition truthy (s : string) : bool :=
  match s with
  | EmptyString => false
  | _ => true
  end.

Fixpoint zeros (n : nat) : string :=
  match n with
  | O => EmptyString
  | S k => String "0" (zeros k)
  end.

(** [s.zfill(width)]: pad with zeros on the left, after a leading sign. *)
Definition zfill (s : string) (width : nat) : string :=
  let pad := zeros (width - String.length s) in
  match s with
  | String "+" t => String "+" (pad ++ t)
  | String "-" t => String "-" (pad ++ t)
  | _ => pad ++ s
  end.

End Py.

(** ** Text normalization *)

(** [normalize_text(text)] *)
Definition normalize_text (text : option string) : string :=
  match text with
  | None => ""
  | Some s => Py.sub_ws false (Py.lower (Py.strip s))
  end.

(** ** [difflib.SequenceMatcher(None, a, b).ratio()]

    The standard-library matcher that [is_match] calls, with [isjunk = None]
    and the default [autojunk = True].  Sequences are indexed lists of
    characters; [j2len] and [newj2len] are the dictionaries of
    [find_longest_match], kept as association lists. *)

Module Difflib.

Definition best : Type := (nat * nat * nat)%type.

Section Matcher.

Variables a b : list ascii.

Definition at_a (i : nat) : ascii := nth i a Ascii.zero.
Definition at_b (j : nat) : ascii := nth j b Ascii.zero.

Fixpoint indices (x : ascii) (l : list ascii) (j : nat) : list nat :=
  match l with
  | [] => []
  | y :: t => if Ascii.eqb y x then j :: indices x t (S j) else indices x t (S j)
  end.

(** [__chain_b]: with at least 200 elements in [b], an element occurring
    more than [n // 100 + 1] times is popular and leaves [b2j]. *)
Definition popular (x : ascii) : bool :=
  let n := List.length b in
  ((200 <=? n) && (n / 100 + 1 <? List.length (indices x b 0)))%nat.

(** [b2j.get(x, nothing)] *)
Definition b2j (x : ascii) : list nat :=
  if popular x then [] else indices x b 0.

Fixpoint j2len_get (d : list (nat * nat)) (j : nat) : nat :=
  match d with
  | [] => 0%nat
  | (j', k) :: t => if (j' =? j)%nat then k else j2len_get t j
  end.

(** The loop [for j in b2j.get(a[i], nothing)] of [find_longest_match]. *)
Fixpoint scan_row (i blo bhi : nat) (j2len : list (nat * nat))
    (js : list nat) (newj2len : list (nat * nat)) (bst : best)
    : list (nat * nat) * best :=
  match js with
  | [] => (newj2len, bst)
  | j :: t =>
      if (j <? blo)%nat then scan_row i blo bhi j2len t newj2len bst
      else if (bhi <=? j)%nat then (newj2len, bst)
      else
        let k := (match j with
                  | O => 0
                  | S j' => j2len_get j2len j'
                  end + 1)%nat in
        let '(_, _, bestsize) := bst in
        scan_row i blo bhi j2len t ((j, k) :: newj2len)
          (if (bestsize <? k)%nat then ((i + 1 - k)%nat, (j + 1 - k)%nat, k) else bst)
  end.

(** The loop [for i in range(alo, ahi)]; [rng] enumerates the range. *)
Fixpoint scan (blo bhi : nat) (rng : list nat) (j2len : list (nat * nat))
    (bst : best) : best :=
  match rng with
  | [] => bst
  | i :: t =>
      let '(newj2len, bst') := scan_row i blo bhi j2len (b2j (at_a i)) [] bst in
      scan blo bhi t newj2len bst'
  end.

(** First extension loop: grow the block to the left while the elements
    before it agree (no element is junk). *)
Fixpoint extend_left (alo blo besti bestj bestsize : nat) {struct besti} : best :=
  match besti, bestj with
  | S i', S j' =>
      if ((alo <? besti) && (blo <? bestj))%nat && Ascii.eqb (at_a i') (at_b j')
      then extend_left alo blo i' j' (S bestsize)
      else (besti, bestj, bestsize)
  | _, _ => (besti, bestj, bestsize)
  end.

(** Second extension loop: grow it to the right; at most [fuel] steps are
    possible, [fuel] being the room left below [ahi]. *)
Fixpoint extend_right (ahi bhi besti bestj bestsize fuel : nat) : nat :=
  match fuel with
  | O => bestsize
  | S f =>
      if ((besti + bestsize <? ahi) && (bestj + bestsize <? bhi))%nat
         && Ascii.eqb (at_a (besti + bestsize)) (at_b (bestj + bestsize))
      then extend_right ahi bhi besti bestj (S bestsize) f
      else bestsize
  end.

(** [find_longest_match(alo, ahi, blo, bhi)].  The two loops over junk
    elements never run: [bjunk] is empty. *)
Definition find_longest_match (alo ahi blo bhi : nat) : best :=
  let '(besti, bestj, bestsize) :=
    scan blo bhi (seq alo (ahi - alo)) [] (alo, blo, 0%nat) in
  let '(besti, bestj, bestsize) := extend_left alo blo besti bestj bestsize in
  (besti, bestj,
   extend_right ahi bhi besti bestj bestsize (ahi - (besti + bestsize))).

(** The sum of the sizes of the blocks that [get_matching_blocks] collects.
    The work queue of the source is the recursion here; every pushed range
    of [a] is strictly shorter than the one it comes from, so a [fuel] of
    [ahi - alo] levels is enough. *)
Fixpoint matching_size (fuel alo ahi blo bhi : nat) : nat :=
  match fuel with
  | O => 0%nat
  | S f =>
      let '(i, j, k) := find_longest_match alo ahi blo bhi in
      if (k =? 0)%nat then 0%nat
      else
        (k
         + (if (alo <? i) && (blo <? j) then matching_size f alo i blo j else 0)
         + (if (i + k <? ahi) && (j + k <? bhi)
            then matching_size f (i + k) ahi (j + k) bhi else 0))%nat
  end.

Definition matches : nat :=
  matching_size (S (List.length a)) 0 (List.length a) 0 (List.length b).

End Matcher.

(** [_calculate_ratio(matches, length)]: [2.0 * matches / length], and 1.0
    for two empty sequences.  The quotient is a float in the source and is
    kept exact here.  Its only use is the test [>= 0.75], and the test has
    the same outcome on the float: 0.75 is a binary fraction, rounding is
    monotone, and an exact quotient below 0.75 is below it by at least
    [1 / (4 * length)], more than half a unit in the last place for every
    length below 2^52. *)
Definition calculate_ratio (matches length : nat) : Q :=
  match length with
  | O => 1%Q
  | S _ => Qmake (2 * Z.of_nat matches) (Pos.of_nat length)
  end.

Definition ratio (a b : string) : Q :=
  let la := list_ascii_of_string a in
  let lb := list_ascii_of_string b in
  calculate_ratio (matches la lb) (List.length la + List.length lb).

End Difflib.

(** ** Matching *)

(** [is_match(candidate, query, fuzzy)] *)
Definition is_match (candidate query : option string) (fuzzy : bool) : bool :=
  let c := normalize_text candidate in
  let q := normalize_text query in
  if negb (Py.truthy q) then true
  else if Py.contains c q then true
  else if fuzzy then Qle_bool 0.75 (Difflib.ratio c q)
  else false.

(** ** Dictionaries, sets and sorting *)

(** A [dict] in insertion order.  [dict_set] is [d[k] = v] (a key already
    present keeps its place), [dict_get] is [d.get(k)], and [dict_append] is
    [d.setdefault(k, []).append(x)]. *)
Section Dict.

Context {K V : Type} (keqb : K -> K -> bool).

Fixpoint dict_get (d : list (K * V)) (k : K) : option V :=
  match d with
  | [] => None
  | (k', v) :: t => if keqb k' k then Some v else dict_get t k
  end.

Fixpoint dict_set (d : list (K * V)) (k : K) (v : V) : list (K * V) :=
  match d with
  | [] => [(k, v)]
  | (k', v') :: t => if keqb k' k then (k', v) :: t else (k', v') :: dict_set t k v
  end.

End Dict.

Fixpoint dict_append {X : Type} (d : list (string * list X)) (k : string) (x : X)
    : list (string * list X) :=
  match d with
  | [] => [(k, [x])]
  | (k', xs) :: t =>
      if String.eqb k' k then (k', (xs ++ [x])%list) :: t else (k', xs) :: dict_append t k x
  end.

(** [sorted(xs)]: the stable sort, by insertion; [leb] is the order [<=]. *)
Section Sorting.

Context {A : Type} (leb : A -> A -> bool).

Fixpoint insert_sorted (x : A) (l : list A) : list A :=
  match l with
  | [] => [x]
  | y :: t => if leb x y then x :: l else y :: insert_sorted x t
  end.

Definition sorted (l : list A) : list A := fold_right insert_sorted [] l.

End Sorting.

(** A [set], as a list without repetition; [set_add] is [s.add(x)]. *)
Definition set_add {A : Type} (eqb : A -> A -> bool) (x : A) (s : list A) : list A :=
  if existsb (eqb x) s then s else (s ++ [x])%list.

(** ** Exceptions *)

(** The one exception that the mapping builder can raise on a parsed dataset
    whose names and identifiers are strings or [null]: [sorted] on province
    identifiers among which one is [None]. *)
Inductive result (A : Type) : Type :=
| Ok (x : A)
| TypeError.

Arguments Ok {A} x.
Arguments TypeError {A}.

(** ** The dataset and the mapping *)

(** Entries of [districtList], [provinceList] and [subDistrictList]; a field
    is [None] when the key is missing or [null] ([d.get(...)]). *)
Record District : Type := {
  districtId : option string;
  districtName : option string
}.

Record Province : Type := {
  provinceId : option string;
  provinceName : option string
}.

Record SubDistrict : Type := {
  subDistrictName : option string;
  sd_districtId : option string
}.

(** A row of the dataset; [zipCode] holds [str(record.get("zipCode", ""))]
    and a missing list is empty. *)
Record RawRecord : Type := {
  zipCode : string;
  districtList : list District;
  provinceList : list Province;
  subDistrictList : list SubDistrict
}.

(** The dictionary [{"province": .., "amphoe": .., "district": ..}]. *)
Record Place : Type := {
  province : option string;
  amphoe : string;
  district : string
}.

Definition Mapping : Type := list (string * list Place).

Definition option_eqb (x y : option string) : bool :=
  match x, y with
  | None, None => true
  | Some a, Some b => String.eqb a b
  | _, _ => false
  end.

(** Is the value falsy ([None] or the empty string)? *)
Definition falsy (x : option string) : bool :=
  match x with
  | None => true
  | Some s => negb (Py.truthy s)
  end.

Definition unwrap (x : option string) : string :=
  match x with
  | None => ""
  | Some s => s
  end.

(** The tuples [(province_name, amphoe_name, sd_name)] of [unique_locations].
    Python compares tuples lexicographically by the first differing
    position; all tuples of one record share [province_name], so the first
    position never decides (and [None] is never ordered against a string). *)
Definition Triple : Type := (option string * string * string)%type.

Definition option_compare (x y : option string) : comparison :=
  match x, y with
  | None, None => Eq
  | None, Some _ => Lt
  | Some _, None => Gt
  | Some a, Some b => String.compare a b
  end.

Definition triple_compare (x y : Triple) : comparison :=
  let '(p1, a1, d1) := x in
  let '(p2, a2, d2) := y in
  match option_compare p1 p2 with
  | Eq => match String.compare a1 a2 with
          | Eq => String.compare d1 d2
          | c => c
          end
  | c => c
  end.

Definition triple_eqb (x y : Triple) : bool :=
  match triple_compare x y with
  | Eq => true
  | _ => false
  end.

Definition triple_leb (x y : Triple) : bool :=
  match triple_compare x y with
  | Gt => false
  | _ => true
  end.

Definition place_of_triple (t : Triple) : Place :=
  let '(p, a, d) := t in {| province := p; amphoe := a; district := d |}.

(** The least key of [sorted(province_id_to_name.keys())], started from the
    first key [k].  Keys are distinct, so two keys can only be compared when
    both are strings. *)
Fixpoint least_key (k : option string) (ks : list (option string))
    : result (option string) :=
  match ks with
  | [] => Ok k
  | k' :: t =>
      match k, k' with
      | Some x, Some y => least_key (Some (if String.ltb y x then y else x)) t
      | _, _ => TypeError
      end
  end.

(** Lines 29-34: the province name of a record. *)
Definition pick_province (province_id_to_name : list (option string * option string))
    : result (option string) :=
  match map fst province_id_to_name with
  | [] => Ok None
  | k :: ks =>
      match least_key k ks with
      | Ok key =>
          Ok (match dict_get option_eqb province_id_to_name key with
              | Some name => name
              | None => None
              end)
      | TypeError => TypeError
      end
  end.

(** Lines 36-43: the set of triples of a record. *)
Definition collect_locations (province_name : option string)
    (district_id_to_name : list (option string * option string))
    (sds : list SubDistrict) : list Triple :=
  fold_left
    (fun unique_locations sd =>
       let sd_name := subDistrictName sd in
       let d_id := sd_districtId sd in
       let amphoe_name :=
         match dict_get option_eqb district_id_to_name d_id with
         | Some name => name
         | None => None
         end in
       if falsy sd_name || falsy amphoe_name then unique_locations
       else set_add triple_eqb (province_name, unwrap amphoe_name, unwrap sd_name)
                    unique_locations)
    sds [].

(** Lines 20-50: the loop over the rows. *)
Fixpoint build_loop (rows : list RawRecord) (zipcode_to_locations : Mapping)
    : result Mapping :=
  match rows with
  | [] => Ok zipcode_to_locations
  | record :: rest =>
      let code := Py.zfill (zipCode record) 5 in
      if negb (Py.isdigit code) || negb (String.length code =? 5)%nat
      then build_loop rest zipcode_to_locations
      else
        let district_id_to_name :=
          fold_left (fun d x => dict_set option_eqb d (districtId x) (districtName x))
                    (districtList record) [] in
        let province_id_to_name :=
          fold_left (fun d x => dict_set option_eqb d (provinceId x) (provinceName x))
                    (provinceList record) [] in
        match pick_province province_id_to_name with
        | TypeError => TypeError
        | Ok province_name =>
            let unique_locations :=
              collect_locations province_name district_id_to_name
                                (subDistrictList record) in
            build_loop rest
              (fold_left (fun m t => dict_append m code (place_of_triple t))
                         (sorted triple_leb unique_locations)
                         zipcode_to_locations)
        end
  end.

(** [fetch_and_build_mapping], from the parsed [rows] on. *)
Definition fetch_and_build_mapping (rows : list RawRecord) : result Mapping :=
  build_loop rows [].

(** ** The flattened index *)

(** An element of [RECORDS]. *)
Module Rec.
Record t : Type := {
  code : string;
  province : option string;
  amphoe : string;
  district : string;
  province_n : string;
  amphoe_n : string;
  district_n : string
}.
End Rec.

(** A result of the search: [{"code", "province", "amphoe", "district"}]. *)
Module Hit.
Record t : Type := {
  code : string;
  province : option string;
  amphoe : string;
  district : string
}.
End Hit.

Definition record_of (code : string) (loc : Place) : Rec.t :=
  {| Rec.code := code;
     Rec.province := province loc;
     Rec.amphoe := amphoe loc;
     Rec.district := district loc;
     Rec.province_n := normalize_text (province loc);
     Rec.amphoe_n := normalize_text (Some (amphoe loc));
     Rec.district_n := normalize_text (Some (district loc)) |}.

(** Lines 86-97: [RECORDS], by iteration over the items of the mapping. *)
Definition build_records (ZIPCODE_TO_LOCATIONS : Mapping) : list Rec.t :=
  flat_map (fun item => map (record_of (fst item)) (snd item)) ZIPCODE_TO_LOCATIONS.

(** [sorted({x for x in xs if x})] on strings. *)
Definition sorted_distinct (xs : list string) : list string :=
  sorted String.leb
    (fold_left (fun s x => if Py.truthy x then set_add String.eqb x s else s) xs []).

(** The module-level globals that the handlers read. *)
Record Index : Type := {
  ZIPCODE_TO_LOCATIONS : Mapping;
  RECORDS : list Rec.t;
  UNIQUE_PROVINCES : list string;
  UNIQUE_AMPHOES : list string;
  UNIQUE_DISTRICTS : list string;
  UNIQUE_ZIPCODES : list string
}.

(** Lines 63 and 86-102, from the mapping on. *)
Definition build_index (m : Mapping) : Index :=
  let records := build_records m in
  {| ZIPCODE_TO_LOCATIONS := m;
     RECORDS := records;
     UNIQUE_PROVINCES := sorted_distinct (map (fun r => unwrap (Rec.province r)) records);
     UNIQUE_AMPHOES := sorted_distinct (map Rec.amphoe records);
     UNIQUE_DISTRICTS := sorted_distinct (map Rec.district records);
     UNIQUE_ZIPCODES := sorted String.leb (map fst m) |}.

(** ** Requests and responses *)

(** [request.args] and [request.values]: the parameters in order; [get]
    returns the first value of a key, or the default. *)
Definition Args : Type := list (string * string).

Definition args_lookup (args : Args) (key : string) : option string :=
  dict_get String.eqb args key.

Definition args_get (args : Args) (key default : string) : string :=
  match args_lookup args key with
  | Some v => v
  | None => default
  end.

(** [int(s)] on a string, [None] for [ValueError]: optional whitespace
    around, an optional sign, then decimal digits, with single underscores
    allowed between digits.  [int] strips TAB..CR and SPACE, and NEL and NBSP
    which it first turns into spaces.  (Recent versions of Python also raise
    [ValueError] on more than 4300 digits; the handlers treat every
    [ValueError] alike, and the statements below hold for whatever [int]
    returns.) *)
Module PyInt.

Definition space_char (c : ascii) : bool :=
  Py.between 9 13 (Py.ord c) || (Py.ord c =? 32)%N
  || (Py.ord c =? 133)%N || (Py.ord c =? 160)%N.

Fixpoint digits (s : string) (acc : Z) (after_digit : bool) : option Z :=
  match s with
  | EmptyString => if after_digit then Some acc else None
  | String c t =>
      if Ascii.eqb c "_" then
        if after_digit then digits t acc false else None
      else if Py.between 48 57 (Py.ord c)
      then digits t (10 * acc + (Z.of_N (Py.ord c) - 48)) true
      else None
  end.

Definition int (s : string) : option Z :=
  match Py.rstrip_by space_char (Py.lstrip_by space_char s) with
  | String "+" t => digits t 0 false
  | String "-" t => option_map Z.opp (digits t 0 false)
  | t => digits t 0 false
  end.

End PyInt.

(** [xs[lo:hi]] for bounds that are not negative, as all slices of the
    handlers are. *)
Definition slice {A : Type} (xs : list A) (lo hi : Z) : list A :=
  firstn (Z.to_nat (hi - lo)) (skipn (Z.to_nat lo) xs).

Definition len {A : Type} (xs : list A) : Z := Z.of_nat (List.length xs).

(** [s.lower() in {"1", "true", "yes", "y"}] *)
Definition flag (s : string) : bool :=
  let l := Py.lower s in
  String.eqb l "1" || String.eqb l "true" || String.eqb l "yes" || String.eqb l "y".

(** The JSON bodies of the API. *)
Inductive Body : Type :=
| ErrorBody (error : string)
| NotFoundBody (error code : string)
| LocationsBody (code : string) (locations : list Place)
| SearchBody (total limit offset : Z) (results : list Hit.t)
| ReverseBody (results : list (string * list Place))
| SuggestBody (zipcodes provinces amphoes districts : list string).

Definition Response : Type := (Body * Z)%type.

(** ** The JSON API *)

(** [ZipcodeLookup.get] *)
Definition ZipcodeLookup_get (ZIPCODE_TO_LOCATIONS : Mapping) (code : string) : Response :=
  let code_clean := Py.strip code in
  if negb (Py.isdigit code_clean) || negb (String.length code_clean =? 5)%nat
  then (ErrorBody "Invalid zipcode. Must be 5 digits.", 400)
  else
    let locations :=
      match dict_get String.eqb ZIPCODE_TO_LOCATIONS code_clean with
      | Some locs => locs
      | None => []
      end in
    match locations with
    | [] => (NotFoundBody "Zipcode not found in dataset." code_clean, 404)
    | _ => (LocationsBody code_clean locations, 200)
    end.

Definition row_of (r : Rec.t) : Hit.t :=
  {| Hit.code := Rec.code r;
     Hit.province := Rec.province r;
     Hit.amphoe := Rec.amphoe r;
     Hit.district := Rec.district r |}.

(** Lines 269-276: [limit] and [offset] of the search. *)
Definition search_limit (args : Args) : Z :=
  match args_lookup args "limit" with
  | None => Z.max 1 (Z.min 200 50)
  | Some s =>
      match PyInt.int s with
      | Some n => Z.max 1 (Z.min 200 n)
      | None => 50
      end
  end.

Definition search_offset (args : Args) : Z :=
  match args_lookup args "offset" with
  | None => Z.max 0 0
  | Some s =>
      match PyInt.int s with
      | Some n => Z.max 0 n
      | None => 0
      end
  end.

(** Lines 281-303: the body of the loop of [ForwardSearch.get] on the record
    [r]; it returns [results] as the body leaves it, unchanged where the
    source says [continue]. *)
Definition search_step (code_q province amphoe district q : string) (fuzzy : bool)
    (results : list Hit.t) (r : Rec.t) : list Hit.t :=
  if Py.truthy code_q && negb (Py.startswith (Rec.code r) code_q) then results
  else if Py.truthy province
          && negb (is_match (Rec.province r) (Some province) fuzzy) then results
  else if Py.truthy amphoe
          && negb (is_match (Some (Rec.amphoe r)) (Some amphoe) fuzzy) then results
  else if Py.truthy district
          && negb (is_match (Some (Rec.district r)) (Some district) fuzzy) then results
  else if Py.truthy q
          && negb (is_match (Rec.province r) (Some q) fuzzy
                   || is_match (Some (Rec.amphoe r)) (Some q) fuzzy
                   || is_match (Some (Rec.district r)) (Some q) fuzzy
                   || Py.startswith (Rec.code r) q) then results
  else (results ++ [row_of r])%list.

(** Line 280: [for r in RECORDS]. *)
Definition search_loop (code_q province amphoe district q : string) (fuzzy : bool)
    (records : list Rec.t) (results : list Hit.t) : list Hit.t :=
  fold_left (search_step code_q province amphoe district q fuzzy) records results.

(** [ForwardSearch.get] *)
Definition ForwardSearch_get (RECORDS : list Rec.t) (args : Args) : Response :=
  let code := args_get args "code" "" in
  let province := args_get args "province" "" in
  let amphoe := args_get args "amphoe" "" in
  let district := args_get args "district" "" in
  let q := args_get args "q" "" in
  let fuzzy := flag (args_get args "fuzzy" "false") in
  let limit := search_limit args in
  let offset := search_offset args in
  let code_q := Py.strip code in
  let results := search_loop code_q province amphoe district q fuzzy RECORDS [] in
  let total := len results in
  let paged := slice results offset (offset + limit) in
  (SearchBody total limit offset paged, 200).

Definition place_of (r : Rec.t) : Place :=
  {| province := Rec.province r; amphoe := Rec.amphoe r; district := Rec.district r |}.

(** Lines 321-331: the body of the loop of [ReverseLookup.get] on the record
    [r]; it returns [grouped] as the body leaves it. *)
Definition reverse_step (province amphoe district : string) (fuzzy : bool)
    (grouped : list (string * list Place)) (r : Rec.t) : list (string * list Place) :=
  if Py.truthy province
     && negb (is_match (Rec.province r) (Some province) fuzzy) then grouped
  else if Py.truthy amphoe
          && negb (is_match (Some (Rec.amphoe r)) (Some amphoe) fuzzy) then grouped
  else if Py.truthy district
          && negb (is_match (Some (Rec.district r)) (Some district) fuzzy) then grouped
  else dict_append grouped (Rec.code r) (place_of r).

(** Line 320: [for r in RECORDS]. *)
Definition reverse_loop (province amphoe district : string) (fuzzy : bool)
    (records : list Rec.t) (grouped : list (string * list Place))
    : list (string * list Place) :=
  fold_left (reverse_step province amphoe district fuzzy) records grouped.

(** The order of [sorted(grouped.items())]: the keys of a dictionary are
    distinct, so the first components decide. *)
Definition item_leb (x y : string * list Place) : bool := String.leb (fst x) (fst y).

(** [ReverseLookup.get] *)
Definition ReverseLookup_get (RECORDS : list Rec.t) (args : Args) : Response :=
  let province := args_get args "province" "" in
  let amphoe := args_get args "amphoe" "" in
  let district := args_get args "district" "" in
  let fuzzy := flag (args_get args "fuzzy" "false") in
  let grouped := reverse_loop province amphoe district fuzzy RECORDS [] in
  match grouped with
  | [] => (ErrorBody "No results found.", 404)
  | _ => (ReverseBody (sorted item_leb grouped), 200)
  end.

(** Lines 345-348: [limit] of the suggestions. *)
Definition suggest_limit (args : Args) : Z :=
  match args_lookup args "limit" with
  | None => Z.max 1 (Z.min 20 10)
  | Some s =>
      match PyInt.int s with
      | Some n => Z.max 1 (Z.min 20 n)
      | None => 10
      end
  end.

(** Lines 359-366: [filter_values], with its accumulator [picks]; the test
    on the length comes after every value, matching or not. *)
Fixpoint filter_values (qn : string) (limit : Z) (values picks : list string)
    : list string :=
  match values with
  | [] => picks
  | v :: rest =>
      let picks' :=
        if Py.contains (normalize_text (Some v)) qn then (picks ++ [v])%list else picks in
      if len picks' >=? limit then picks' else filter_values qn limit rest picks'
  end.

(** [Suggest.get] *)
Definition Suggest_get (idx : Index) (args : Args) : Response :=
  let q := args_get args "q" "" in
  let limit := suggest_limit args in
  let qn := normalize_text (Some q) in
  if negb (Py.truthy qn) then
    (SuggestBody (slice (UNIQUE_ZIPCODES idx) 0 limit)
                 (slice (UNIQUE_PROVINCES idx) 0 limit)
                 (slice (UNIQUE_AMPHOES idx) 0 limit)
                 (slice (UNIQUE_DISTRICTS idx) 0 limit), 200)
  else
    let zip_sug :=
      slice (filter (fun z => Py.startswith z qn) (UNIQUE_ZIPCODES idx)) 0 limit in
    let prov_sug := filter_values qn limit (UNIQUE_PROVINCES idx) [] in
    let amph_sug := filter_values qn limit (UNIQUE_AMPHOES idx) [] in
    let dist_sug := filter_values qn limit (UNIQUE_DISTRICTS idx) [] in
    (SuggestBody zip_sug prov_sug amph_sug dist_sug, 200).

(** ** The search page *)

(** What [ui_search] hands to the template [search.html]. *)
Record SearchPage : Type := {
  params : Args;
  total : Z;
  results : option (list Hit.t)
}.

(** Lines 156-172: the body of the loop of [ui_search] on the record [r]. *)
Definition ui_search_step (code_q : string) (params : Args) (fuzzy : bool)
    (rows : list Hit.t) (r : Rec.t) : list Hit.t :=
  if Py.truthy code_q && negb (Py.startswith (Rec.code r) code_q) then rows
  else if Py.truthy (args_get params "province" "")
          && negb (is_match (Rec.province r) (Some (args_get params "province" "")) fuzzy)
  then rows
  else if Py.truthy (args_get params "amphoe" "")
          && negb (is_match (Some (Rec.amphoe r)) (Some (args_get params "amphoe" "")) fuzzy)
  then rows
  else if Py.truthy (args_get params "district" "")
          && negb (is_match (Some (Rec.district r)) (Some (args_get params "district" "")) fuzzy)
  then rows
  else if Py.truthy (args_get params "q" "")
          && negb (is_match (Rec.province r) (Some (args_get params "q" "")) fuzzy
                   || is_match (Some (Rec.amphoe r)) (Some (args_get params "q" "")) fuzzy
                   || is_match (Some (Rec.district r)) (Some (args_get params "q" "")) fuzzy
                   || Py.startswith (Rec.code r) (args_get params "q" ""))
  then rows
  else (rows ++ [row_of r])%list.

(** Line 155: [for r in RECORDS]. *)
Definition ui_search_loop (code_q : string) (params : Args) (fuzzy : bool)
    (records : list Rec.t) (rows : list Hit.t) : list Hit.t :=
  fold_left (ui_search_step code_q params fuzzy) records rows.

(** [ui_search]; [values] is [request.values]. *)
Definition ui_search (RECORDS : list Rec.t) (values : Args) : SearchPage :=
  let params :=
    [ ("q", args_get values "q" "");
      ("code", args_get values "code" "");
      ("province", args_get values "province" "");
      ("amphoe", args_get values "amphoe" "");
      ("district", args_get values "district" "");
      ("fuzzy", args_get values "fuzzy" "false") ] in
  if existsb (fun kv => Py.truthy (snd kv)) params then
    let fuzzy := flag (args_get params "fuzzy" "") in
    let code_q := Py.strip (args_get params "code" "") in
    let rows := ui_search_loop code_q params fuzzy RECORDS [] in
    {| params := params; total := len rows; results := Some (slice rows 0 100) |}
  else
    {| params := params; total := 0; results := None |}.

(** ** Predicates used in the statements *)

(** A string that does not begin with whitespace, and one that does not end
    with it: the fixed points of the two halves of [strip]. *)
Definition starts_ok (s : string) : bool :=
  match s with
  | EmptyString => true
  | String c _ => negb (Py.isspace_char c)
  end.

Fixpoint ends_ok (s : string) : bool :=
  match s with
  | EmptyString => true
  | String c t =>
      match t with
      | EmptyString => negb (Py.isspace_char c)
      | _ => ends_ok t
      end
  end.

(** The filters of the search as one test on a record: every parameter that
    is not empty must hold, the postal code being compared after [strip]. *)
Definition search_filter (code_q province amphoe district q : string) (fuzzy : bool)
    (r : Rec.t) : bool :=
  (negb (Py.truthy code_q) || String.prefix code_q (Rec.code r))
  && (negb (Py.truthy province) || is_match (Rec.province r) (Some province) fuzzy)
  && (negb (Py.truthy amphoe) || is_match (Some (Rec.amphoe r)) (Some amphoe) fuzzy)
  && (negb (Py.truthy district) || is_match (Some (Rec.district r)) (Some district) fuzzy)
  && (negb (Py.truthy q)
      || is_match (Rec.province r) (Some q) fuzzy
      || is_match (Some (Rec.amphoe r)) (Some q) fuzzy
      || is_match (Some (Rec.district r)) (Some q) fuzzy
      || String.prefix q (Rec.code r)).

(** The filters of the reverse lookup as one test on a record. *)
Definition reverse_filter (province amphoe district : string) (fuzzy : bool)
    (r : Rec.t) : bool :=
  (negb (Py.truthy province) || is_match (Rec.province r) (Some province) fuzzy)
  && (negb (Py.truthy amphoe) || is_match (Some (Rec.amphoe r)) (Some amphoe) fuzzy)
  && (negb (Py.truthy district) || is_match (Some (Rec.district r)) (Some district) fuzzy).

(** [grouped] describes the records [ms]: its keys are distinct and are the
    codes of [ms], and each key holds the places of the records of [ms] with
    that code, in their order and with repetitions. *)
Definition groups_of (ms : list Rec.t) (grouped : list (string * list Place)) : Prop :=
  NoDup (map fst grouped)
  /\ (forall c, In c (map fst grouped) <-> In c (map Rec.code ms))
  /\ (forall c locs,
        In (c, locs) grouped ->
        locs = map place_of (filter (fun r => String.eqb (Rec.code r) c) ms)).

(** The relation of a boolean order. *)
Definition holds {A : Type} (leb : A -> A -> bool) (x y : A) : Prop := leb x y = true.

(** The relations "ascending" on strings: [<=] and [<] by code point. *)
Definition str_le (x y : string) : Prop := String.leb x y = true.
Definition str_lt (x y : string) : Prop := String.ltb x y = true.

(** ** Sample data for the examples *)

Definition khlong_tan : Place :=
  {| province := Some "Bangkok"; amphoe := "Khlong Toei"; district := "Khlong Tan" |}.

(** The codes 10000, 10001, ... in decimal. *)
Definition sample_code (i : nat) : string :=
  DecimalString.NilEmpty.string_of_uint (N.to_uint (10000 + N.of_nat i)).

(** [n] records with pairwise distinct codes. *)
Definition sample_records (n : nat) : list Rec.t :=
  map (fun i => record_of (sample_code i) khlong_tan) (seq 0 n).

(** A small dataset: one row for the code 10110, with a subdistrict listed
    twice, one without a name and one whose district is unknown. *)
Definition sample_row : RawRecord :=
  {| zipCode := "10110";
     districtList :=
       [ {| districtId := Some "1033"; districtName := Some "Khlong Toei" |};
         {| districtId := Some "1039"; districtName := Some "Watthana" |} ];
     provinceList := [ {| provinceId := Some "10"; provinceName := Some "Bangkok" |} ];
     subDistrictList :=
       [ {| subDistrictName := Some "Phra Khanong"; sd_districtId := Some "1033" |};
         {| subDistrictName := Some "Khlong Tan"; sd_districtId := Some "1033" |};
         {| subDistrictName := Some "Khlong Toei Nuea"; sd_districtId := Some "1039" |};
         {| subDistrictName := Some "Khlong Tan"; sd_districtId := Some "1033" |};
         {| subDistrictName := Some ""; sd_districtId := Some "1033" |};
         {| subDistrictName := Some "Khlong Toei"; sd_districtId := None |} ] |}.

Definition sample_mapping : Mapping :=
  [ ("10110",
     [ {| province := Some "Bangkok"; amphoe := "Khlong Toei"; district := "Khlong Tan" |};
       {| province := Some "Bangkok"; amphoe := "Khlong Toei"; district := "Phra Khanong" |};
       {| province := Some "Bangkok"; amphoe := "Watthana";
          district := "Khlong Toei Nuea" |} ]) ].

(** A second row for the same code 10110. *)
Definition second_row : RawRecord :=
  {| zipCode := "10110";
     districtList := [ {| districtId := Some "1033"; districtName := Some "Khlong Toei" |} ];
     provinceList := [ {| provinceId := Some "10"; provinceName := Some "Bangkok" |} ];
     subDistrictList :=
       [ {| subDistrictName := Some "Khlong Tan"; sd_districtId := Some "1033" |} ] |}.

(** The order of the places of a code: that of their triples. *)
Definition place_compare (p q : Place) : comparison :=
  triple_compare (province p, amphoe p, district p) (province q, amphoe q, district q).

Definition place_le (p q : Place) : Prop := place_compare p q <> Gt.
Definition place_lt (p q : Place) : Prop := place_compare p q = Lt.

(** A stored list of places: not empty, every place with a non-empty
    [amphoe] and a non-empty [district]. *)
Definition named (p : Place) : Prop := amphoe p <> "" /\ district p <> "".

Definition entry_ok (item : string * list Place) : Prop :=
  snd item <> [] /\ Forall named (snd item).

(** Exactly five characters, all in ["0".."9"]. *)
Definition five_ascii_digits (s : string) : bool :=
  (String.length s =? 5)%nat
  && forallb (fun c => Py.between 48 57 (Py.ord c)) (list_ascii_of_string s).

(** Five times the character SUPERSCRIPT TWO (0xB2): digits for [isdigit],
    not ASCII. *)
Definition superscript_twos : string :=
  let c := ascii_of_N 178 in
  String c (String c (String c (String c (String c EmptyString)))).

(** The key that a row of the dataset contributes to, and the test that
    keeps the row. *)
Definition padded_code (record : RawRecord) : string := Py.zfill (zipCode record) 5.

Definition kept (record : RawRecord) : bool :=
  Py.isdigit (padded_code record) && (String.length (padded_code record) =? 5)%nat.

Definition triple_lt (x y : Triple) : Prop := triple_compare x y = Lt.

(** A block [(i, j, k)] that lies inside the range [alo, ahi) of [a]. *)
Definition block_within (alo ahi : nat) (blk : Difflib.best) : Prop :=
  let '(i, _, k) := blk in (alo <= i /\ i + k <= ahi)%nat.

(** ** The other pages *)

(** What [ui_zipcode] hands to the template [zipcode.html]; [data] is the
    dictionary [{"code": code, "locations": locs}]. *)
Module ZipcodePage.
Record t : Type := {
  code : string;
  data : option (string * list Place);
  error : option string
}.
End ZipcodePage.

(** [ui_zipcode]; [values] is [request.values]. *)
Definition ui_zipcode (ZIPCODE_TO_LOCATIONS : Mapping) (values : Args) : ZipcodePage.t :=
  let code := Py.strip (args_get values "code" "") in
  if Py.truthy code then
    if negb (Py.isdigit code) || negb (String.length code =? 5)%nat
    then {| ZipcodePage.code := code; ZipcodePage.data := None;
            ZipcodePage.error := Some "Invalid zipcode. Must be 5 digits." |}
    else
      let locs :=
        match dict_get String.eqb ZIPCODE_TO_LOCATIONS code with
        | Some locs => locs
        | None => []
        end in
      match locs with
      | [] => {| ZipcodePage.code := code; ZipcodePage.data := None;
                 ZipcodePage.error := Some "Zipcode not found." |}
      | _ => {| ZipcodePage.code := code; ZipcodePage.data := Some (code, locs);
                ZipcodePage.error := None |}
      end
  else {| ZipcodePage.code := code; ZipcodePage.data := None;
          ZipcodePage.error := None |}.

(** What [ui_reverse] hands to the template [reverse.html]. *)
Module ReversePage.
Record t : Type := {
  params : Args;
  results : option (list (string * list Place))
}.
End ReversePage.

(** Lines 191-197: the body of the loop of [ui_reverse] on the record [r]. *)
Definition ui_reverse_step (params : Args) (fuzzy : bool)
    (grouped : list (string * list Place)) (r : Rec.t) : list (string * list Place) :=
  if Py.truthy (args_get params "province" "")
     && negb (is_match (Rec.province r) (Some (args_get params "province" "")) fuzzy)
  then grouped
  else if Py.truthy (args_get params "amphoe" "")
          && negb (is_match (Some (Rec.amphoe r)) (Some (args_get params "amphoe" "")) fuzzy)
  then grouped
  else if Py.truthy (args_get params "district" "")
          && negb (is_match (Some (Rec.district r)) (Some (args_get params "district" "")) fuzzy)
  then grouped
  else dict_append grouped (Rec.code r) (place_of r).

(** [ui_reverse] *)
Definition ui_reverse (RECORDS : list Rec.t) (values : Args) : ReversePage.t :=
  let params :=
    [ ("province", args_get values "province" "");
      ("amphoe", args_get values "amphoe" "");
      ("district", args_get values "district" "");
      ("fuzzy", args_get values "fuzzy" "false") ] in
  if existsb (fun kv => Py.truthy (snd kv)) params then
    let fuzzy := flag (args_get params "fuzzy" "") in
    let grouped := fold_left (ui_reverse_step params fuzzy) RECORDS [] in
    {| ReversePage.params := params;
       ReversePage.results := Some (slice (sorted item_leb grouped) 0 100) |}
  else {| ReversePage.params := params; ReversePage.results := None |}.

(** What [ui_suggest] hands to the template [suggest.html]; [suggestions] is a
    dictionary with the four keys of the body of the API. *)
Module SuggestPage.
Record t : Type := {
  q : string;
  suggestions : option Body
}.
End SuggestPage.

(** [ui_suggest]; its local [filter_values] is the one of [Suggest.get], with
    the fixed [limit] of 10. *)
Definition ui_suggest (idx : Index) (values : Args) : SuggestPage.t :=
  let q := args_get values "q" "" in
  let limit := 10 in
  if Py.truthy q then
    let qn := normalize_text (Some q) in
    let zip_sug :=
      slice (filter (fun z => Py.startswith z qn) (UNIQUE_ZIPCODES idx)) 0 limit in
    let prov_sug := filter_values qn limit (UNIQUE_PROVINCES idx) [] in
    let amph_sug := filter_values qn limit (UNIQUE_AMPHOES idx) [] in
    let dist_sug := filter_values qn limit (UNIQUE_DISTRICTS idx) [] in
    {| SuggestPage.q := q;
       SuggestPage.suggestions := Some (SuggestBody zip_sug prov_sug amph_sug dist_sug) |}
  else {| SuggestPage.q := q; SuggestPage.suggestions := None |}.

(** ** More predicates for the statements *)

(** The two dictionaries that the builder makes for a row (lines 25-26). *)
Definition district_id_to_name (record : RawRecord) : list (option string * option string) :=
  fold_left (fun d x => dict_set option_eqb d (districtId x) (districtName x))
            (districtList record) [].

Definition province_id_to_name (record : RawRecord) : list (option string * option string) :=
  fold_left (fun d x => dict_set option_eqb d (provinceId x) (provinceName x))
            (provinceList record) [].

(** The place [p] is listed for the code [c] by a kept row of [rows]: the
    row pads to [c], one of its subdistricts has the name [district p] and a
    district identifier that resolves to the name [amphoe p], both names not
    empty, and the row's province name is [province p]. *)
Definition listed (rows : list RawRecord) (c : string) (p : Place) : Prop :=
  exists record sd,
    In record rows
    /\ kept record = true
    /\ padded_code record = c
    /\ pick_province (province_id_to_name record) = Ok (province p)
    /\ In sd (subDistrictList record)
    /\ subDistrictName sd = Some (district p)
    /\ district p <> ""
    /\ dict_get option_eqb (district_id_to_name record) (sd_districtId sd)
       = Some (Some (amphoe p))
    /\ amphoe p <> "".

(** The place [p] is stored under the key [c] of the dictionary [d]. *)
Definition stored (d : Mapping) (c : string) (p : Place) : Prop :=
  exists locs, dict_get String.eqb d c = Some locs /\ In p locs.

(** The number of places in all the groups of a dictionary. *)
Definition places_count (d : list (string * list Place)) : nat :=
  List.length (List.concat (map snd d)).


(** * Properties of the text utilities *)

Module TextFacts.
Import Py.

Ltac by_cases_on_char c :=
  destruct c as [[] [] [] [] [] [] [] []]; vm_compute; reflexivity.

Lemma isspace_lower_char (c : ascii) : isspace_char (lower_char c) = isspace_char c.
Proof. by_cases_on_char c. Qed.

Lemma lower_char_idem (c : ascii) : lower_char (lower_char c) = lower_char c.
Proof. by_cases_on_char c. Qed.

Lemma lower_idem (s : string) : lower (lower s) = lower s.
Proof.
  induction s as [|c t IH]; simpl; [reflexivity|].
  now rewrite lower_char_idem, IH.
Qed.

Lemma starts_ok_lstrip (s : string) : starts_ok (lstrip_by isspace_char s) = true.
Proof.
  induction s as [|c t IH]; simpl; [reflexivity|].
  destruct (isspace_char c) eqn:E; [exact IH|]. simpl. now rewrite E.
Qed.

Lemma lstrip_fixed (s : string) :
  starts_ok s = true -> lstrip_by isspace_char s = s.
Proof.
  destruct s as [|c t]; simpl; [reflexivity|].
  now destruct (isspace_char c).
Qed.

Lemma starts_ok_rstrip (s : string) :
  starts_ok s = true -> starts_ok (rstrip_by isspace_char s) = true.
Proof.
  destruct s as [|c t]; simpl; [reflexivity|]. intros H.
  destruct (rstrip_by isspace_char t); [|exact H].
  destruct (isspace_char c) eqn:E; [discriminate|]. simpl. now rewrite E.
Qed.

Lemma starts_ok_lower (s : string) : starts_ok (lower s) = starts_ok s.
Proof. destruct s as [|c t]; simpl; [reflexivity|]. now rewrite isspace_lower_char. Qed.

Lemma starts_ok_sub_ws (s : string) :
  starts_ok s = true -> starts_ok (sub_ws false s) = true.
Proof.
  destruct s as [|c t]; simpl; [reflexivity|].
  destruct (isspace_char c) eqn:E; [discriminate|]. simpl. now rewrite E.
Qed.

Lemma ends_ok_rstrip (s : string) : ends_ok (rstrip_by isspace_char s) = true.
Proof.
  induction s as [|c t IH]; simpl; [reflexivity|].
  destruct (rstrip_by isspace_char t) as [|d t'] eqn:E.
  - destruct (isspace_char c) eqn:Ec; simpl; [reflexivity|]. now rewrite Ec.
  - exact IH.
Qed.

Lemma rstrip_fixed (s : string) :
  ends_ok s = true -> rstrip_by isspace_char s = s.
Proof.
  induction s as [|c t IH]; [reflexivity|].
  destruct t as [|d t'].
  - simpl. now destruct (isspace_char c).
  - intros H. change (ends_ok (String d t') = true) in H.
    change (match rstrip_by isspace_char (String d t') with
            | EmptyString => if isspace_char c then EmptyString else String c EmptyString
            | t'' => String c t''
            end = String c (String d t')).
    now rewrite (IH H).
Qed.

Lemma ends_ok_cons (c : ascii) (s : string) :
  s <> EmptyString -> ends_ok (String c s) = ends_ok s.
Proof. destruct s; [congruence|reflexivity]. Qed.

Lemma ends_ok_lower (s : string) : ends_ok (lower s) = ends_ok s.
Proof.
  induction s as [|c t IH]; [reflexivity|].
  destruct t as [|d t'].
  - simpl. now rewrite isspace_lower_char.
  - exact IH.
Qed.

Lemma sub_ws_cons (b : bool) (c : ascii) (t : string) :
  sub_ws b (String c t) =
  if isspace_char c
  then if b then sub_ws true t else String " " (sub_ws true t)
  else String c (sub_ws false t).
Proof. reflexivity. Qed.

Lemma sub_ws_nonempty (s : string) (b : bool) :
  ends_ok s = true -> s <> EmptyString -> sub_ws b s <> EmptyString.
Proof.
  revert b. induction s as [|c t IH]; intros b H Hne; [congruence|].
  destruct t as [|d t'].
  - simpl in *. destruct (isspace_char c); [discriminate|congruence].
  - change (ends_ok (String d t') = true) in H.
    assert (Hd : String d t' <> EmptyString) by congruence.
    rewrite (sub_ws_cons b c). destruct (isspace_char c).
    + destruct b; [now apply IH|congruence].
    + congruence.
Qed.

Lemma ends_ok_sub_ws (s : string) (b : bool) :
  ends_ok s = true -> ends_ok (sub_ws b s) = true.
Proof.
  revert b. induction s as [|c t IH]; intros b H; [reflexivity|].
  destruct t as [|d t'].
  - simpl in *. destruct (isspace_char c) eqn:E; [discriminate|]. simpl. now rewrite E.
  - change (ends_ok (String d t') = true) in H.
    assert (Hd : String d t' <> EmptyString) by congruence.
    rewrite (sub_ws_cons b c). destruct (isspace_char c).
    + destruct b; [now apply IH|].
      rewrite ends_ok_cons; [now apply IH|now apply sub_ws_nonempty].
    + rewrite ends_ok_cons; [now apply IH|now apply sub_ws_nonempty].
Qed.

Lemma sub_ws_lower (s : string) (b : bool) : lower (sub_ws b s) = sub_ws b (lower s).
Proof.
  revert b. induction s as [|c t IH]; intros b; simpl; [reflexivity|].
  rewrite isspace_lower_char.
  destruct (isspace_char c); [destruct b|]; simpl; now rewrite IH.
Qed.

Lemma sub_ws_fixed (s : string) :
  sub_ws false (sub_ws false s) = sub_ws false s
  /\ sub_ws true (sub_ws true s) = sub_ws true s
  /\ sub_ws false (sub_ws true s) = sub_ws true s.
Proof.
  induction s as [|c t (IH1 & IH2 & IH3)]; simpl; [now repeat split|].
  destruct (isspace_char c) eqn:E; simpl.
  - change (isspace_char " ") with true. cbv iota. rewrite IH2. now repeat split.
  - rewrite E, IH1. now repeat split.
Qed.

Lemma normalize_fixed (u : string) :
  starts_ok u = true -> ends_ok u = true -> lower u = u -> sub_ws false u = u ->
  normalize_text (Some u) = u.
Proof.
  intros Hs He Hl Hw. unfold normalize_text, strip.
  now rewrite (lstrip_fixed _ Hs), (rstrip_fixed _ He), Hl.
Qed.

End TextFacts.

(** C9: [normalize_text] is idempotent, maps [None] to the empty string,
    and is a total function: it has a value on every input. *)
Theorem normalize_text_idempotent :
  (forall x : string,
     normalize_text (Some (normalize_text (Some x))) = normalize_text (Some x))
  /\ normalize_text None = ""
  /\ (forall text : option string,
        normalize_text (Some (normalize_text text)) = normalize_text text
        /\ exists s : string, normalize_text text = s).
Proof.
  assert (idem : forall x : string,
            normalize_text (Some (normalize_text (Some x))) = normalize_text (Some x)).
  { intros x. apply TextFacts.normalize_fixed; unfold normalize_text, Py.strip.
    - apply TextFacts.starts_ok_sub_ws. rewrite TextFacts.starts_ok_lower.
      apply TextFacts.starts_ok_rstrip, TextFacts.starts_ok_lstrip.
    - apply TextFacts.ends_ok_sub_ws. rewrite TextFacts.ends_ok_lower.
      apply TextFacts.ends_ok_rstrip.
    - now rewrite TextFacts.sub_ws_lower, TextFacts.lower_idem.
    - apply TextFacts.sub_ws_fixed. }
  split; [exact idem|]. split; [reflexivity|].
  intros [x|]; split; eauto.
Qed.

Lemma prefix_iff (p s : string) :
  String.prefix p s = true <-> exists post, s = p ++ post.
Proof.
  revert s. induction p as [|c p IH]; intros s.
  - simpl. destruct s; split; eauto.
  - destruct s as [|d s]; simpl.
    + split; [discriminate|]. intros [post H]. discriminate.
    + destruct (ascii_dec c d) as [->|Hne].
      * rewrite IH. split; intros [post H]; exists post; congruence.
      * split; [discriminate|]. intros [post H]. congruence.
Qed.

Lemma contains_iff (c q : string) :
  Py.contains c q = true <-> exists pre post, c = pre ++ q ++ post.
Proof.
  induction c as [|x c IH].
  - cbn [Py.contains]. rewrite orb_false_r, prefix_iff. split.
    + intros [post H]. now exists "", post.
    + intros (pre & post & H). destruct pre as [|y pre]; [|discriminate].
      now exists post.
  - cbn [Py.contains]. rewrite orb_true_iff, IH, prefix_iff. split.
    + intros [[post H]|(pre & post & H)].
      * now exists "", post.
      * exists (String x pre), post. simpl. now rewrite H.
    + intros (pre & post & H). destruct pre as [|y pre].
      * left. now exists post.
      * right. exists pre, post. simpl in H. congruence.
Qed.

Lemma truthy_false_iff (s : string) : Py.truthy s = false <-> s = "".
Proof. destruct s; simpl; split; congruence. Qed.

(** C6: [is_match] answers true exactly when the normalized query is empty,
    or it occurs inside the normalized candidate (whatever [fuzzy] is), or
    [fuzzy] is set and the similarity ratio of the two normalized strings is
    at least 0.75. *)
Theorem is_match_cases (candidate query : option string) (fuzzy : bool) :
  is_match candidate query fuzzy = true <->
  normalize_text query = ""
  \/ (exists pre post,
        normalize_text candidate = pre ++ normalize_text query ++ post)
  \/ (fuzzy = true
      /\ (0.75 <= Difflib.ratio (normalize_text candidate) (normalize_text query))%Q).
Proof.
  unfold is_match. rewrite <- contains_iff, <- truthy_false_iff, <- Qle_bool_iff.
  destruct (Py.truthy (normalize_text query)); simpl; [|tauto].
  destruct (Py.contains (normalize_text candidate) (normalize_text query));
    simpl; [tauto|].
  destruct fuzzy; [|intuition discriminate].
  split; [tauto|]. intros [H|[H|[_ H]]]; (discriminate || assumption).
Qed.


(** * The matcher: the recursion of [matching_size] has fuel enough *)

Module DifflibFacts.
Import Difflib.

Section Bounds.

Variables a b : list ascii.

Lemma j2len_get_bound (d : list (nat * nat)) (j bound : nat) :
  Forall (fun jk => (snd jk <= bound)%nat) d -> (j2len_get d j <= bound)%nat.
Proof.
  induction 1 as [|[j' k] t Hk _ IH]; simpl; [lia|].
  destruct (j' =? j)%nat; [exact Hk|exact IH].
Qed.

(** After the row [i], the lengths recorded are at most [i + 1 - alo] and
    the best block ends at [i + 1] or before. *)
Lemma scan_row_bound (alo i blo bhi : nat) (j2len : list (nat * nat)) (js : list nat)
    (newj2len : list (nat * nat)) (bst : best) :
  (alo <= i)%nat ->
  Forall (fun jk => (snd jk <= i - alo)%nat) j2len ->
  Forall (fun jk => (snd jk <= S i - alo)%nat) newj2len ->
  block_within alo (S i) bst ->
  let '(d, bst') := scan_row i blo bhi j2len js newj2len bst in
  Forall (fun jk => (snd jk <= S i - alo)%nat) d /\ block_within alo (S i) bst'.
Proof.
  intros Hi Hold. revert newj2len bst.
  induction js as [|j t IH]; intros newj2len bst Hnew Hbst; cbn [scan_row].
  - now split.
  - destruct (j <? blo)%nat; [now apply IH|].
    destruct (bhi <=? j)%nat; [now split|].
    destruct bst as [[besti bestj] bestsize].
    set (k := (match j with O => 0 | S j' => j2len_get j2len j' end + 1)%nat).
    assert (Hk : (k <= S i - alo)%nat).
    { unfold k. destruct j as [|j']; [lia|].
      pose proof (j2len_get_bound j2len j' (i - alo) Hold). lia. }
    apply IH.
    + constructor; [exact Hk|exact Hnew].
    + destruct (bestsize <? k)%nat; [|exact Hbst]. simpl. lia.
Qed.

Lemma block_within_weaken (alo ahi ahi' : nat) (bst : best) :
  (ahi <= ahi')%nat -> block_within alo ahi bst -> block_within alo ahi' bst.
Proof. destruct bst as [[i j] k]. simpl. lia. Qed.

Lemma scan_bound (alo blo bhi n i : nat) (j2len : list (nat * nat)) (bst : best) :
  (alo <= i)%nat ->
  Forall (fun jk => (snd jk <= i - alo)%nat) j2len ->
  block_within alo i bst ->
  block_within alo (i + n) (scan a b blo bhi (seq i n) j2len bst).
Proof.
  revert i j2len bst. induction n as [|n IH]; intros i j2len bst Hi Hold Hbst;
    cbn [seq scan].
  - now rewrite Nat.add_0_r.
  - pose proof (scan_row_bound alo i blo bhi j2len (b2j b (at_a a i)) [] bst Hi Hold
                  (Forall_nil _)
                  (block_within_weaken alo i (S i) bst (Nat.le_succ_diag_r i) Hbst)) as H.
    destruct (scan_row i blo bhi j2len (b2j b (at_a a i)) [] bst) as [d bst'].
    destruct H as [Hd Hb].
    replace (i + S n)%nat with (S i + n)%nat by lia.
    apply IH; [lia| |exact Hb].
    eapply Forall_impl; [|exact Hd]. simpl. intros jk. lia.
Qed.

Lemma extend_left_bound (alo blo besti bestj bestsize : nat) :
  (alo <= besti)%nat ->
  let '(i, _, k) := extend_left a b alo blo besti bestj bestsize in
  (alo <= i /\ i + k = besti + bestsize)%nat.
Proof.
  revert bestj bestsize. induction besti as [|i' IH]; intros bestj bestsize Hle.
  - simpl. lia.
  - destruct bestj as [|j']; [simpl; lia|]. cbn [extend_left].
    destruct ((alo <? S i') && (blo <? S j'))%nat eqn:E; [|simpl; lia].
    destruct (Ascii.eqb (at_a a i') (at_b b j')); [|simpl; lia]. cbn [andb].
    apply andb_true_iff in E as [E _]. apply Nat.ltb_lt in E.
    specialize (IH j' (S bestsize) ltac:(lia)).
    destruct (extend_left a b alo blo i' j' (S bestsize)) as [[i j] k]. lia.
Qed.

Lemma extend_right_bound (ahi bhi besti bestj bestsize fuel : nat) :
  (besti + bestsize <= ahi)%nat ->
  (besti + extend_right a b ahi bhi besti bestj bestsize fuel <= ahi)%nat.
Proof.
  revert bestsize. induction fuel as [|f IH]; intros bestsize Hle; cbn [extend_right];
    [exact Hle|].
  destruct ((besti + bestsize <? ahi) && (bestj + bestsize <? bhi))%nat eqn:E;
    [|exact Hle].
  destruct (Ascii.eqb _ _); [|exact Hle]. cbn [andb].
  apply andb_true_iff in E as [E _]. apply Nat.ltb_lt in E. apply IH. lia.
Qed.

(** The block that [find_longest_match] returns lies inside the range. *)
Lemma find_longest_match_within (alo ahi blo bhi : nat) :
  (alo <= ahi)%nat -> block_within alo ahi (find_longest_match a b alo ahi blo bhi).
Proof.
  intros Hle. unfold find_longest_match.
  pose proof (scan_bound alo blo bhi (ahi - alo) alo [] (alo, blo, 0%nat)
                (Nat.le_refl alo) (Forall_nil _)) as Hscan.
  replace (alo + (ahi - alo))%nat with ahi in Hscan by lia.
  specialize (Hscan ltac:(simpl; lia)).
  destruct (scan a b blo bhi (seq alo (ahi - alo)) [] (alo, blo, 0%nat))
    as [[besti bestj] bestsize].
  simpl in Hscan. destruct Hscan as [H1 H2].
  pose proof (extend_left_bound alo blo besti bestj bestsize H1) as Hl.
  destruct (extend_left a b alo blo besti bestj bestsize) as [[i j] k].
  destruct Hl as [Hl1 Hl2]. simpl. split; [exact Hl1|].
  apply extend_right_bound. lia.
Qed.

(** More fuel than the length of the range changes nothing. *)
Lemma matching_size_fuel (n f f' alo ahi blo bhi : nat) :
  (alo <= ahi)%nat -> (ahi - alo <= n)%nat -> (n <= f)%nat -> (n <= f')%nat ->
  matching_size a b f alo ahi blo bhi = matching_size a b f' alo ahi blo bhi.
Proof.
  revert f f' alo ahi blo bhi.
  induction n as [|n IH]; intros f f' alo ahi blo bhi Hle Hlen Hf Hf'.
  - assert (E : forall g, matching_size a b g alo ahi blo bhi = 0%nat).
    { intros [|g]; [reflexivity|]. cbn [matching_size].
      pose proof (find_longest_match_within alo ahi blo bhi Hle) as H.
      destruct (find_longest_match a b alo ahi blo bhi) as [[i j] k]. simpl in H.
      replace k with 0%nat by lia. reflexivity. }
    now rewrite !E.
  - destruct f as [|g]; [lia|]. destruct f' as [|g']; [lia|]. cbn [matching_size].
    pose proof (find_longest_match_within alo ahi blo bhi Hle) as H.
    destruct (find_longest_match a b alo ahi blo bhi) as [[i j] k]. simpl in H.
    destruct (k =? 0)%nat eqn:Ek; [reflexivity|]. apply Nat.eqb_neq in Ek.
    f_equal; [f_equal|].
    + destruct ((alo <? i) && (blo <? j))%nat; [|reflexivity]. apply IH; lia.
    + destruct ((i + k <? ahi) && (j + k <? bhi))%nat eqn:E; [|reflexivity].
      apply andb_true_iff in E as [E _]. apply Nat.ltb_lt in E. apply IH; lia.
Qed.

(** The fuel that [matches] gives is enough: any larger fuel gives the
    same sum. *)
Lemma matches_fuel (f : nat) :
  (List.length a <= f)%nat ->
  matches a b = matching_size a b f 0 (List.length a) 0 (List.length b).
Proof.
  intros Hf. unfold matches. apply (matching_size_fuel (List.length a)); lia.
Qed.

End Bounds.

End DifflibFacts.

(** The examples of the documentation of [difflib], and that of the
    specification: ["chiangg"] against ["Chiang Mai"] has ratio 12/17, below
    0.75. *)
Example ratio_abcd_bcde :
  Difflib.ratio "abcd" "bcde" = (6 # 8)%Q /\ (Difflib.ratio "abcd" "bcde" == 0.75)%Q.
Proof. split; reflexivity. Qed.

Example longest_match_abcd :
  Difflib.find_longest_match (list_ascii_of_string " abcd")
    (list_ascii_of_string "abcd abcd") 0 5 0 9 = (0, 4, 5)%nat.
Proof. reflexivity. Qed.

Example ratio_chiangg : Difflib.ratio "chiang mai" "chiangg" = (12 # 17)%Q.
Proof. reflexivity. Qed.

Example is_match_examples :
  is_match (Some "Chiang Mai") (Some "chiang") false = true
  /\ is_match (Some "Chiang Mai") (Some "chiangg") false = false
  /\ is_match (Some "Chiang Mai") (Some "chiangg") true = false
  /\ is_match (Some "Chiang Mai") (Some "chiang mia") true = true
  /\ is_match None (Some "  ") false = true.
Proof. repeat split; reflexivity. Qed.


(** * Properties of the search, suggest and page handlers *)

Lemma truthy_true_iff (s : string) : Py.truthy s = true <-> s <> "".
Proof. destruct s; simpl; split; congruence. Qed.

Lemma slice_from_zero {A : Type} (xs : list A) (n : Z) :
  slice xs 0 n = firstn (Z.to_nat n) xs.
Proof. unfold slice. now rewrite Z.sub_0_r. Qed.

Lemma slice_window {A : Type} (xs : list A) (offset limit : Z) :
  slice xs offset (offset + limit) = firstn (Z.to_nat limit) (skipn (Z.to_nat offset) xs).
Proof. unfold slice. now replace (offset + limit - offset) with limit by lia. Qed.

Lemma search_limit_range (args : Args) : 1 <= search_limit args <= 200.
Proof.
  unfold search_limit. destruct (args_lookup args "limit") as [s|]; [|lia].
  destruct (PyInt.int s); lia.
Qed.

Lemma search_offset_range (args : Args) : 0 <= search_offset args.
Proof.
  unfold search_offset. destruct (args_lookup args "offset") as [s|]; [|lia].
  destruct (PyInt.int s); lia.
Qed.

Lemma suggest_limit_range (args : Args) : 1 <= suggest_limit args <= 20.
Proof.
  unfold suggest_limit. destruct (args_lookup args "limit") as [s|]; [|lia].
  destruct (PyInt.int s); lia.
Qed.

(** The examples of the specification: [limit=9999] and [limit=abc]. *)
Example search_limit_9999 : search_limit [("limit", "9999")] = 200.
Proof. reflexivity. Qed.

Example search_limit_abc : search_limit [("limit", "abc")] = 50.
Proof. reflexivity. Qed.

Example suggest_limit_minus_3 : suggest_limit [("q", "bang"); ("limit", " -3 ")] = 1.
Proof. reflexivity. Qed.

(** C7: the effective [limit] and [offset] of the search and [limit] of the
    suggestions are the documented default when the parameter is missing or
    is not an integer, and the clamped integer otherwise; both endpoints
    answer 200 whatever the parameters are. *)
Theorem numeric_parameters (RECORDS : list Rec.t) (idx : Index) (args : Args) :
  search_limit args
  = match args_lookup args "limit" with
    | None => 50
    | Some s => match PyInt.int s with
                | Some n => Z.max 1 (Z.min 200 n)
                | None => 50
                end
    end
  /\ search_offset args
     = match args_lookup args "offset" with
       | None => 0
       | Some s => match PyInt.int s with
                   | Some n => Z.max 0 n
                   | None => 0
                   end
       end
  /\ suggest_limit args
     = match args_lookup args "limit" with
       | None => 10
       | Some s => match PyInt.int s with
                   | Some n => Z.max 1 (Z.min 20 n)
                   | None => 10
                   end
       end
  /\ 1 <= search_limit args <= 200
  /\ 0 <= search_offset args
  /\ 1 <= suggest_limit args <= 20
  /\ (exists total results,
        ForwardSearch_get RECORDS args
        = (SearchBody total (search_limit args) (search_offset args) results, 200))
  /\ snd (Suggest_get idx args) = 200.
Proof.
  repeat split;
    try apply search_limit_range; try apply search_offset_range;
    try apply suggest_limit_range.
  - unfold ForwardSearch_get. eauto.
  - unfold Suggest_get.
    now destruct (negb (Py.truthy (normalize_text (Some (args_get args "q" ""))))).
Qed.

(** [filter_values] stops as soon as [limit] values are picked. *)
Lemma filter_values_acc (qn : string) (limit : Z) (values picks : list string) :
  len picks < limit ->
  filter_values qn limit values picks
  = (picks ++ firstn (Z.to_nat (limit - len picks))
                     (filter (fun v => Py.contains (normalize_text (Some v)) qn) values))%list.
Proof.
  revert picks. induction values as [|v rest IH]; intros picks Hlt.
  - simpl. now rewrite firstn_nil, app_nil_r.
  - cbn [filter_values filter].
    destruct (Py.contains (normalize_text (Some v)) qn).
    + assert (Hlen : len (picks ++ [v]) = len picks + 1).
      { unfold len. rewrite length_app. simpl. lia. }
      replace (Z.to_nat (limit - len picks))
        with (S (Z.to_nat (limit - len picks - 1))) by lia.
      cbn [firstn]. rewrite Hlen.
      destruct (len picks + 1 >=? limit) eqn:E.
      * replace (Z.to_nat (limit - len picks - 1)) with O by lia.
        reflexivity.
      * rewrite IH by lia. rewrite Hlen, <- app_assoc.
        now replace (limit - (len picks + 1)) with (limit - len picks - 1) by lia.
    + destruct (len picks >=? limit) eqn:E; [lia|]. now apply IH.
Qed.

Lemma filter_values_firstn (qn : string) (limit : Z) (values : list string) :
  1 <= limit ->
  filter_values qn limit values []
  = firstn (Z.to_nat limit)
           (filter (fun v => Py.contains (normalize_text (Some v)) qn) values).
Proof.
  intros H. rewrite filter_values_acc by (unfold len; simpl; lia).
  unfold len. simpl. now rewrite Z.sub_0_r.
Qed.

(** C8: with an empty normalized query the suggestions are the first
    [limit] entries of the four lists; otherwise they are the first [limit]
    codes that start with the normalized query, and the first [limit] values
    of each name list, in the order of the list, whose normalized form
    contains the normalized query somewhere.  The status is 200. *)
Theorem suggest_cases (idx : Index) (args : Args) :
  let limit := Z.to_nat (suggest_limit args) in
  let qn := normalize_text (Some (args_get args "q" "")) in
  let has_qn := fun v => Py.contains (normalize_text (Some v)) qn in
  Suggest_get idx args
  = (if String.eqb qn ""
     then SuggestBody (firstn limit (UNIQUE_ZIPCODES idx))
                      (firstn limit (UNIQUE_PROVINCES idx))
                      (firstn limit (UNIQUE_AMPHOES idx))
                      (firstn limit (UNIQUE_DISTRICTS idx))
     else SuggestBody
            (firstn limit (filter (fun z => String.prefix qn z) (UNIQUE_ZIPCODES idx)))
            (firstn limit (filter has_qn (UNIQUE_PROVINCES idx)))
            (firstn limit (filter has_qn (UNIQUE_AMPHOES idx)))
            (firstn limit (filter has_qn (UNIQUE_DISTRICTS idx))),
     200)
  /\ (forall v, has_qn v = true
                <-> exists pre post, normalize_text (Some v) = pre ++ qn ++ post).
Proof.
  intros limit qn has_qn. split; [|intros v; apply contains_iff].
  unfold Suggest_get. fold qn.
  pose proof (suggest_limit_range args) as Hl.
  destruct qn as [|c t] eqn:E; simpl negb; cbv iota.
  - now rewrite !slice_from_zero.
  - rewrite !filter_values_firstn by lia. now rewrite slice_from_zero.
Qed.


(** A chain of [continue] tests is one conjunction of the tests. *)
Lemma continue_chain {T : Type} (a1 b1 a2 b2 a3 b3 a4 b4 a5 b5 : bool) (skip keep : T) :
  (if a1 && negb b1 then skip
   else if a2 && negb b2 then skip
   else if a3 && negb b3 then skip
   else if a4 && negb b4 then skip
   else if a5 && negb b5 then skip
   else keep)
  = if (negb a1 || b1) && (negb a2 || b2) && (negb a3 || b3) && (negb a4 || b4)
       && (negb a5 || b5)
    then keep else skip.
Proof. destruct a1, b1, a2, b2, a3, b3, a4, b4, a5, b5; reflexivity. Qed.

(** The loop of the search keeps exactly the records that pass
    [search_filter], in the order of [RECORDS]. *)
Lemma search_step_filter (code_q province amphoe district q : string) (fuzzy : bool)
    (results : list Hit.t) (r : Rec.t) :
  search_step code_q province amphoe district q fuzzy results r
  = if search_filter code_q province amphoe district q fuzzy r
    then (results ++ [row_of r])%list else results.
Proof.
  unfold search_step. rewrite continue_chain.
  unfold search_filter, Py.startswith. now rewrite <- !orb_assoc.
Qed.

Lemma search_loop_filter (code_q province amphoe district q : string) (fuzzy : bool)
    (records : list Rec.t) (results : list Hit.t) :
  search_loop code_q province amphoe district q fuzzy records results
  = (results
     ++ map row_of
          (filter (search_filter code_q province amphoe district q fuzzy) records))%list.
Proof.
  unfold search_loop. revert results.
  induction records as [|r rest IH]; intros results.
  - simpl. now rewrite app_nil_r.
  - cbn [fold_left filter]. rewrite IH, search_step_filter.
    destruct (search_filter code_q province amphoe district q fuzzy r);
      [|reflexivity].
    cbn [map]. now rewrite <- app_assoc.
Qed.

Lemma search_filter_iff (code_q province amphoe district q : string) (fuzzy : bool)
    (r : Rec.t) :
  search_filter code_q province amphoe district q fuzzy r = true <->
  (code_q = "" \/ String.prefix code_q (Rec.code r) = true)
  /\ (province = "" \/ is_match (Rec.province r) (Some province) fuzzy = true)
  /\ (amphoe = "" \/ is_match (Some (Rec.amphoe r)) (Some amphoe) fuzzy = true)
  /\ (district = "" \/ is_match (Some (Rec.district r)) (Some district) fuzzy = true)
  /\ (q = ""
      \/ is_match (Rec.province r) (Some q) fuzzy = true
      \/ is_match (Some (Rec.amphoe r)) (Some q) fuzzy = true
      \/ is_match (Some (Rec.district r)) (Some q) fuzzy = true
      \/ String.prefix q (Rec.code r) = true).
Proof.
  unfold search_filter.
  rewrite !andb_true_iff, !orb_true_iff, !negb_true_iff, !truthy_false_iff.
  tauto.
Qed.

(** C4, amended: the search keeps a record exactly when every parameter that
    is not empty holds for it - the postal code parameter, stripped of
    surrounding whitespace, is a prefix of the record's code; [province],
    [amphoe] and [district] match through [is_match]; [q] matches one of the
    three names or is a prefix of the code.  [total] counts the kept records
    and [results] is the window [offset, offset + limit) of them, in the order
    of [RECORDS]. *)
Theorem forward_search_window (RECORDS : list Rec.t) (args : Args) :
  let code_q := Py.strip (args_get args "code" "") in
  let province := args_get args "province" "" in
  let amphoe := args_get args "amphoe" "" in
  let district := args_get args "district" "" in
  let q := args_get args "q" "" in
  let fuzzy := flag (args_get args "fuzzy" "false") in
  let limit := search_limit args in
  let offset := search_offset args in
  let matching := filter (search_filter code_q province amphoe district q fuzzy) RECORDS in
  ForwardSearch_get RECORDS args
  = (SearchBody (len matching) limit offset
       (firstn (Z.to_nat limit) (skipn (Z.to_nat offset) (map row_of matching))),
     200)
  /\ (forall r : Rec.t,
        In r matching <->
        In r RECORDS
        /\ (code_q = "" \/ String.prefix code_q (Rec.code r) = true)
        /\ (province = "" \/ is_match (Rec.province r) (Some province) fuzzy = true)
        /\ (amphoe = "" \/ is_match (Some (Rec.amphoe r)) (Some amphoe) fuzzy = true)
        /\ (district = "" \/ is_match (Some (Rec.district r)) (Some district) fuzzy = true)
        /\ (q = ""
            \/ is_match (Rec.province r) (Some q) fuzzy = true
            \/ is_match (Some (Rec.amphoe r)) (Some q) fuzzy = true
            \/ is_match (Some (Rec.district r)) (Some q) fuzzy = true
            \/ String.prefix q (Rec.code r) = true)).
Proof.
  intros code_q province amphoe district q fuzzy limit offset matching. split.
  - unfold ForwardSearch_get. rewrite search_loop_filter, slice_window.
    cbn [app]. unfold len. now rewrite length_map.
  - intros r. unfold matching. now rewrite filter_In, search_filter_iff.
Qed.

(** A record of Khlong Toei, used in the examples below. *)
Example khlong_toei_normalized :
  record_of "10110"
    {| province := Some "Bangkok"; amphoe := "Khlong Toei"; district := "Khlong Tan" |}
  = {| Rec.code := "10110"; Rec.province := Some "Bangkok";
       Rec.amphoe := "Khlong Toei"; Rec.district := "Khlong Tan";
       Rec.province_n := "bangkok"; Rec.amphoe_n := "khlong toei";
       Rec.district_n := "khlong tan" |}.
Proof. reflexivity. Qed.

(** The postal code parameter [" 10"] is not a prefix of the code ["10110"],
    and yet the search keeps the record: the parameter is stripped first. *)
Lemma forward_search_strips_code :
  let r := record_of "10110"
             {| province := Some "Bangkok"; amphoe := "Khlong Toei";
                district := "Khlong Tan" |} in
  String.prefix " 10" (Rec.code r) = false
  /\ ForwardSearch_get [r] [("code", " 10")] = (SearchBody 1 50 0 [row_of r], 200).
Proof. split; reflexivity. Qed.

(** The loop of the search page applies the same filter as the API. *)
Lemma ui_search_loop_filter (code_q : string) (params : Args) (fuzzy : bool)
    (records : list Rec.t) (rows : list Hit.t) :
  ui_search_loop code_q params fuzzy records rows
  = search_loop code_q (args_get params "province" "") (args_get params "amphoe" "")
      (args_get params "district" "") (args_get params "q" "") fuzzy records rows.
Proof. reflexivity. Qed.

(** The search page in general: it computes results as soon as one of the
    six values of [params] is not empty, [fuzzy] counting with its default
    ["false"], and then with the filter of the API; it shows the bare form
    only when all six are empty, so when [fuzzy] is sent empty. *)
Lemma ui_search_page (RECORDS : list Rec.t) (values : Args) :
  let q := args_get values "q" "" in
  let code := args_get values "code" "" in
  let province := args_get values "province" "" in
  let amphoe := args_get values "amphoe" "" in
  let district := args_get values "district" "" in
  let fuzzy := args_get values "fuzzy" "false" in
  let params := [("q", q); ("code", code); ("province", province);
                 ("amphoe", amphoe); ("district", district); ("fuzzy", fuzzy)] in
  let matching :=
    filter (search_filter (Py.strip code) province amphoe district q (flag fuzzy))
           RECORDS in
  ui_search RECORDS values
  = if Py.truthy q || Py.truthy code || Py.truthy province || Py.truthy amphoe
       || Py.truthy district || Py.truthy fuzzy
    then {| params := params; total := len matching;
            results := Some (firstn 100 (map row_of matching)) |}
    else {| params := params; total := 0; results := None |}.
Proof.
  intros q code province amphoe district fuzzy params matching.
  unfold ui_search. fold q code province amphoe district fuzzy. fold params.
  replace (existsb (fun kv => Py.truthy (snd kv)) params)
    with (Py.truthy q || Py.truthy code || Py.truthy province || Py.truthy amphoe
          || Py.truthy district || Py.truthy fuzzy)
    by (simpl; now rewrite orb_false_r, !orb_assoc).
  match goal with |- (if ?c then _ else _) = _ => destruct c end; [|reflexivity].
  change (args_get params "fuzzy" "") with fuzzy.
  change (args_get params "code" "") with code.
  rewrite ui_search_loop_filter.
  change (args_get params "province" "") with province.
  change (args_get params "amphoe" "") with amphoe.
  change (args_get params "district" "") with district.
  change (args_get params "q" "") with q.
  rewrite search_loop_filter, slice_from_zero. cbn [app]. fold matching.
  unfold len. now rewrite length_map.
Qed.

(** C5, at the request without any parameter: [fuzzy] takes its default
    ["false"], a non-empty string, so the page does not stay bare; it runs
    the search with no filter: all of [RECORDS] pass, [total] is their number
    and the first 100 are shown. *)
Theorem ui_search_without_parameters (RECORDS : list Rec.t) :
  ui_search RECORDS []
  = {| params := [("q", ""); ("code", ""); ("province", ""); ("amphoe", "");
                  ("district", ""); ("fuzzy", "false")];
       total := len RECORDS;
       results := Some (firstn 100 (map row_of RECORDS)) |}.
Proof.
  rewrite ui_search_page. cbn [args_get args_lookup dict_get Py.truthy orb].
  assert (H : forall rs,
             filter (search_filter (Py.strip "") "" "" "" "" (flag "false")) rs = rs).
  { induction rs as [|r rs IH]; [reflexivity|]. cbn [filter].
    change (search_filter (Py.strip "") "" "" "" "" (flag "false") r) with true.
    now rewrite IH. }
  now rewrite H.
Qed.


(** * Sorting and dictionaries *)

Section SortFacts.

Context {A : Type} (leb : A -> A -> bool).
Hypothesis leb_total : forall x y, leb x y = true \/ leb y x = true.

Lemma insert_sorted_perm (x : A) (l : list A) :
  Permutation (insert_sorted leb x l) (x :: l).
Proof.
  induction l as [|y t IH]; simpl; [reflexivity|].
  destruct (leb x y); [reflexivity|].
  rewrite IH. apply perm_swap.
Qed.

Lemma sorted_perm (l : list A) : Permutation (sorted leb l) l.
Proof.
  induction l as [|x t IH]; simpl; [reflexivity|].
  now rewrite insert_sorted_perm, IH.
Qed.

Lemma insert_sorted_hd (x y : A) (l : list A) :
  holds leb y x -> HdRel (holds leb) y l -> HdRel (holds leb) y (insert_sorted leb x l).
Proof.
  intros Hyx Hl. destruct l as [|z t]; simpl; [now constructor|].
  destruct (leb x z); constructor; [exact Hyx|now inversion Hl].
Qed.

Lemma insert_sorted_ok (x : A) (l : list A) :
  Sorted (holds leb) l -> Sorted (holds leb) (insert_sorted leb x l).
Proof.
  induction 1 as [|y t Hs IH Hhd]; simpl; [repeat constructor|].
  destruct (leb x y) eqn:E.
  - repeat constructor; assumption.
  - constructor; [exact IH|]. apply insert_sorted_hd; [|exact Hhd].
    destruct (leb_total x y); [congruence|assumption].
Qed.

Lemma sorted_ok (l : list A) : Sorted (holds leb) (sorted leb l).
Proof.
  induction l as [|x t IH]; simpl; [constructor|now apply insert_sorted_ok].
Qed.

End SortFacts.

(** From sorted and duplicate-free to strictly sorted, for any order. *)
Section Strict.

Context {A : Type} (le lt : A -> A -> Prop).
Hypothesis le_cases : forall x y, le x y <-> x = y \/ lt x y.
Hypothesis lt_trans : forall x y z, lt x y -> lt y z -> lt x z.

Lemma le_trans_of_cases (x y z : A) : le x y -> le y z -> le x z.
Proof.
  rewrite !le_cases. intros [->|Hxy] [->|Hyz]; auto.
  right. eapply lt_trans; eassumption.
Qed.

Lemma sorted_nodup_strict_gen (l : list A) :
  Sorted le l -> NoDup l -> StronglySorted lt l.
Proof.
  intros Hs Hn.
  apply Sorted_StronglySorted in Hs; [|exact le_trans_of_cases].
  induction Hs as [|x t Hs IH Hall]; [constructor|].
  inversion Hn as [|? ? Hnotin Hn']; subst. constructor; [now apply IH|].
  rewrite Forall_forall in *. intros y Hy.
  destruct (proj1 (le_cases x y) (Hall y Hy)) as [->|H]; [contradiction|exact H].
Qed.

End Strict.

Lemma str_le_cases (x y : string) : str_le x y <-> x = y \/ str_lt x y.
Proof.
  unfold str_le, str_lt, String.leb, String.ltb.
  destruct (String.compare x y) eqn:E.
  - apply String.compare_eq_iff in E. intuition.
  - intuition.
  - split; [discriminate|]. intros [->|H]; [|discriminate].
    pose proof (proj2 (OrderedTypeEx.String_as_OT.cmp_eq y y) eq_refl) as R.
    unfold OrderedTypeEx.String_as_OT.cmp in R. congruence.
Qed.

Lemma str_lt_trans (x y z : string) : str_lt x y -> str_lt y z -> str_lt x z.
Proof.
  unfold str_lt, String.ltb. intros Hxy Hyz.
  destruct (String.compare x y) eqn:E1; try discriminate.
  destruct (String.compare y z) eqn:E2; try discriminate.
  apply OrderedTypeEx.String_as_OT.cmp_lt in E1, E2.
  pose proof (OrderedTypeEx.String_as_OT.lt_trans _ _ _ E1 E2) as H.
  apply OrderedTypeEx.String_as_OT.cmp_lt in H.
  unfold OrderedTypeEx.String_as_OT.cmp in H. now rewrite H.
Qed.

Lemma str_le_total (x y : string) : String.leb x y = true \/ String.leb y x = true.
Proof. apply String.leb_total. Qed.

(** A list of strings sorted by [<=] without repetition is sorted by [<]. *)
Lemma sorted_nodup_strict (l : list string) :
  Sorted str_le l -> NoDup l -> StronglySorted str_lt l.
Proof. apply sorted_nodup_strict_gen; [exact str_le_cases|exact str_lt_trans]. Qed.

Lemma sorted_map_fst {B : Type} (l : list (string * B)) :
  Sorted (holds (fun x y : string * B => String.leb (fst x) (fst y))) l ->
  Sorted str_le (map fst l).
Proof.
  induction 1 as [|x t Hs IH Hhd]; simpl; constructor; [exact IH|].
  destruct Hhd; simpl; constructor. assumption.
Qed.

(** [dict_append] on a dictionary with distinct keys. *)
Lemma dict_append_keys {X : Type} (d : list (string * list X)) (k : string) (x : X) :
  (In k (map fst d) /\ map fst (dict_append d k x) = map fst d)
  \/ (~ In k (map fst d) /\ map fst (dict_append d k x) = (map fst d ++ [k])%list).
Proof.
  induction d as [|[k' xs] t IH]; simpl; [right; tauto|].
  destruct (String.eqb_spec k' k) as [->|Hne]; simpl.
  - left. tauto.
  - destruct IH as [[Hin ->]|[Hnin ->]]; [left|right]; tauto.
Qed.

Lemma dict_append_entry {X : Type} (d : list (string * list X)) (k : string) (x : X)
    (c : string) (xs' : list X) :
  NoDup (map fst d) ->
  In (c, xs') (dict_append d k x) ->
  (c <> k /\ In (c, xs') d)
  \/ (c = k /\ exists xs, In (k, xs) d /\ xs' = (xs ++ [x])%list)
  \/ (c = k /\ ~ In k (map fst d) /\ xs' = [x]).
Proof.
  induction d as [|[k' xs] t IH]; simpl; intros Hnd Hin.
  - destruct Hin as [E|[]]. injection E as <- <-. right. right. tauto.
  - inversion Hnd as [|? ? Hnotin Hnd']; subst.
    destruct (String.eqb_spec k' k) as [->|Hne]; simpl in Hin.
    + destruct Hin as [E|Hin].
      * injection E as <- <-. right. left. split; [reflexivity|]. exists xs. tauto.
      * left. split; [|tauto]. intros ->. apply Hnotin.
        now apply (in_map fst) in Hin.
    + destruct Hin as [E|Hin]; [injection E as <- <-; left; tauto|].
      destruct (IH Hnd' Hin) as [[H1 H2]|[[H1 (ys & H2 & H3)]|[H1 [H2 H3]]]].
      * left. tauto.
      * right. left. split; [exact H1|]. exists ys. tauto.
      * right. right. repeat split; try assumption. intros [H|H]; congruence.
Qed.


(** * The reverse lookup *)

Lemma continue_chain3 {T : Type} (a1 b1 a2 b2 a3 b3 : bool) (skip keep : T) :
  (if a1 && negb b1 then skip
   else if a2 && negb b2 then skip
   else if a3 && negb b3 then skip
   else keep)
  = if (negb a1 || b1) && (negb a2 || b2) && (negb a3 || b3) then keep else skip.
Proof. destruct a1, b1, a2, b2, a3, b3; reflexivity. Qed.

Lemma reverse_loop_filter (province amphoe district : string) (fuzzy : bool)
    (records : list Rec.t) (grouped : list (string * list Place)) :
  reverse_loop province amphoe district fuzzy records grouped
  = fold_left (fun g r => dict_append g (Rec.code r) (place_of r))
              (filter (reverse_filter province amphoe district fuzzy) records) grouped.
Proof.
  unfold reverse_loop. revert grouped.
  induction records as [|r rest IH]; intros grouped; [reflexivity|].
  cbn [fold_left filter]. rewrite IH. unfold reverse_step. rewrite continue_chain3.
  match goal with
  | |- context [if ?c then dict_append _ _ _ else _] =>
      change c with (reverse_filter province amphoe district fuzzy r)
  end.
  now destruct (reverse_filter province amphoe district fuzzy r).
Qed.

Lemma filter_code_absent (c : string) (ms : list Rec.t) :
  ~ In c (map Rec.code ms) -> filter (fun r => String.eqb (Rec.code r) c) ms = [].
Proof.
  induction ms as [|r t IH]; simpl; [reflexivity|]. intros H.
  destruct (String.eqb_spec (Rec.code r) c) as [E|_]; [tauto|]. apply IH. tauto.
Qed.

Lemma groups_of_step (ms : list Rec.t) (grouped : list (string * list Place)) (r : Rec.t) :
  groups_of ms grouped ->
  groups_of (ms ++ [r]) (dict_append grouped (Rec.code r) (place_of r)).
Proof.
  intros (Hnd & Hkeys & Hlocs).
  assert (Hgroup : forall c,
            map place_of (filter (fun r0 => String.eqb (Rec.code r0) c) (ms ++ [r]))
            = (map place_of (filter (fun r0 => String.eqb (Rec.code r0) c) ms)
               ++ (if String.eqb (Rec.code r) c then [place_of r] else []))%list).
  { intros c. rewrite filter_app, map_app. simpl.
    now destruct (String.eqb (Rec.code r) c). }
  repeat split.
  - destruct (dict_append_keys grouped (Rec.code r) (place_of r)) as [[Hin ->]|[Hnin ->]];
      [exact Hnd|].
    apply NoDup_app; [exact Hnd|repeat constructor; intros []|].
    intros c Hc [<-|[]]. contradiction.
  - rewrite map_app, in_app_iff, <- Hkeys. simpl.
    destruct (dict_append_keys grouped (Rec.code r) (place_of r)) as [[Hin ->]|[Hnin ->]].
    + tauto.
    + rewrite in_app_iff. simpl. tauto.
  - rewrite map_app, in_app_iff, <- Hkeys. simpl.
    destruct (dict_append_keys grouped (Rec.code r) (place_of r)) as [[Hin ->]|[Hnin ->]].
    + intros [H|[<-|[]]]; assumption.
    + rewrite in_app_iff. simpl. tauto.
  - intros c locs Hin. rewrite Hgroup.
    destruct (dict_append_entry _ _ _ _ _ Hnd Hin)
      as [[Hne H]|[[-> (xs & H & ->)]|[-> [Hnin ->]]]].
    + destruct (String.eqb_spec (Rec.code r) c) as [E|_]; [congruence|].
      rewrite app_nil_r. now apply Hlocs.
    + rewrite String.eqb_refl. now rewrite (Hlocs _ _ H).
    + rewrite String.eqb_refl, filter_code_absent; [reflexivity|].
      now rewrite <- Hkeys.
Qed.

Lemma groups_of_fold (ms seen : list Rec.t) (grouped : list (string * list Place)) :
  groups_of seen grouped ->
  groups_of (seen ++ ms)
    (fold_left (fun g r => dict_append g (Rec.code r) (place_of r)) ms grouped).
Proof.
  revert seen grouped. induction ms as [|r t IH]; intros seen grouped H; simpl.
  - now rewrite app_nil_r.
  - replace (seen ++ r :: t)%list with ((seen ++ [r]) ++ t)%list
      by (now rewrite <- app_assoc).
    apply IH. now apply groups_of_step.
Qed.

Lemma groups_of_nil : groups_of [] [].
Proof. repeat split; simpl; try tauto; constructor. Qed.

(** [groups_of] does not depend on the order of the groups. *)
Lemma groups_of_perm (ms : list Rec.t) (g g' : list (string * list Place)) :
  Permutation g g' -> groups_of ms g -> groups_of ms g'.
Proof.
  intros Hp (Hnd & Hkeys & Hlocs). repeat split.
  - eapply Permutation_NoDup; [|exact Hnd]. now apply Permutation_map.
  - intros H. apply Hkeys. eapply Permutation_in; [|exact H].
    apply Permutation_map. now symmetry.
  - intros H. apply Hkeys in H. eapply Permutation_in; [|exact H].
    now apply Permutation_map.
  - intros c locs H. apply Hlocs. eapply Permutation_in; [|exact H]. now symmetry.
Qed.

(** C1, amended: when no record passes the filters the answer is 404 with
    the error ["No results found."]; otherwise it is 200 with one group for
    every distinct code among the records that pass (there is no limit on the
    number of groups), the groups in strictly ascending order of code, and in
    each group the places of the passing records with that code, in the order
    of [RECORDS] and with repetitions kept. *)
Theorem reverse_lookup_groups (RECORDS : list Rec.t) (args : Args) :
  let province := args_get args "province" "" in
  let amphoe := args_get args "amphoe" "" in
  let district := args_get args "district" "" in
  let fuzzy := flag (args_get args "fuzzy" "false") in
  let matching := filter (reverse_filter province amphoe district fuzzy) RECORDS in
  match matching with
  | [] => ReverseLookup_get RECORDS args = (ErrorBody "No results found.", 404)
  | _ :: _ =>
      exists results,
        ReverseLookup_get RECORDS args = (ReverseBody results, 200)
        /\ StronglySorted str_lt (map fst results)
        /\ (forall c, In c (map fst results) <-> In c (map Rec.code matching))
        /\ (forall c locs,
              In (c, locs) results ->
              locs = map place_of
                       (filter (fun r => String.eqb (Rec.code r) c) matching))
  end.
Proof.
  intros province amphoe district fuzzy matching.
  unfold ReverseLookup_get. fold province amphoe district fuzzy.
  rewrite reverse_loop_filter. fold matching.
  pose proof (groups_of_fold matching [] [] groups_of_nil) as G. simpl in G.
  destruct matching as [|m ms] eqn:E; [reflexivity|].
  set (grouped := fold_left _ (m :: ms) []) in *.
  destruct grouped as [|g gs] eqn:Eg.
  - destruct G as (_ & Hkeys & _). destruct (proj2 (Hkeys (Rec.code m))). now left.
  - exists (sorted item_leb (g :: gs)). split; [reflexivity|].
    pose proof (sorted_perm item_leb (g :: gs)) as Hp.
    apply (groups_of_perm _ _ _ (Permutation_sym Hp)) in G.
    destruct G as (Hnd & Hkeys & Hlocs). repeat split; try apply Hkeys; try assumption.
    apply sorted_nodup_strict; [|exact Hnd].
    apply sorted_map_fst, sorted_ok. intros x y. apply str_le_total.
Qed.

(** With 101 distinct codes in [RECORDS] and no filter, the answer has 101
    groups: the endpoint does not stop at 100. *)
Lemma reverse_lookup_101_codes :
  let results := map (fun r => (Rec.code r, [place_of r])) (sample_records 101) in
  ReverseLookup_get (sample_records 101) [] = (ReverseBody results, 200)
  /\ List.length results = 101%nat
  /\ ~ (List.length results <= 100)%nat.
Proof.
  split; [vm_compute; reflexivity|].
  assert (H : List.length
                (map (fun r => (Rec.code r, [place_of r])) (sample_records 101))
              = 101%nat) by (vm_compute; reflexivity).
  split; [exact H|]. rewrite H. apply Nat.lt_nge, Nat.lt_succ_diag_r.
Qed.


(** * The mapping *)

Example sample_mapping_built : fetch_and_build_mapping [sample_row] = Ok sample_mapping.
Proof. reflexivity. Qed.

(** Specification property 1: ["12"] is padded and kept, ["1a2b3"] is not. *)
Example short_code_is_padded :
  fetch_and_build_mapping
    [ {| zipCode := "12"; districtList := districtList sample_row;
         provinceList := []; subDistrictList := subDistrictList second_row |};
      {| zipCode := "1a2b3"; districtList := districtList sample_row;
         provinceList := []; subDistrictList := subDistrictList second_row |} ]
  = Ok [("00012",
         [{| province := None; amphoe := "Khlong Toei"; district := "Khlong Tan" |}])].
Proof. reflexivity. Qed.

Lemma falsy_false (x : option string) : falsy x = false -> unwrap x <> "".
Proof. destruct x as [[|c s]|]; simpl; congruence. Qed.

Lemma set_add_forall {A : Type} (eqb : A -> A -> bool) (P : A -> Prop) (x : A)
    (s : list A) :
  P x -> Forall P s -> Forall P (set_add eqb x s).
Proof.
  intros Hx Hs. unfold set_add. destruct (existsb (eqb x) s); [exact Hs|].
  apply Forall_app. split; [exact Hs|]. now constructor.
Qed.

Lemma collect_locations_named (province_name : option string)
    (district_id_to_name : list (option string * option string))
    (sds : list SubDistrict) :
  Forall (fun t => named (place_of_triple t))
         (collect_locations province_name district_id_to_name sds).
Proof.
  unfold collect_locations.
  generalize (@nil Triple) (@Forall_nil Triple (fun t => named (place_of_triple t))).
  induction sds as [|sd rest IH]; intros acc Hacc; [exact Hacc|].
  cbn [fold_left]. apply IH.
  destruct (falsy (subDistrictName sd)) eqn:E1; [exact Hacc|].
  match goal with |- context [falsy ?a] => destruct (falsy a) eqn:E2 end;
    [exact Hacc|].
  cbn [orb]. apply set_add_forall; [|exact Hacc].
  split; simpl; now apply falsy_false.
Qed.

Lemma dict_append_entry_ok (d : Mapping) (k : string) (x : Place) :
  named x -> Forall entry_ok d -> Forall entry_ok (dict_append d k x).
Proof.
  intros Hx. induction 1 as [|[k' xs] t [Hne Hxs] Ht IH]; simpl.
  - constructor; [|constructor]. split; simpl; [discriminate|now constructor].
  - destruct (String.eqb k' k); constructor; try assumption; [|now split].
    split; simpl in *.
    + destruct xs; discriminate.
    + apply Forall_app. split; [exact Hxs|now constructor].
Qed.

Lemma append_all_entry_ok (ts : list Triple) (code : string) (m : Mapping) :
  Forall (fun t => named (place_of_triple t)) ts ->
  Forall entry_ok m ->
  Forall entry_ok (fold_left (fun m t => dict_append m code (place_of_triple t)) ts m).
Proof.
  intros Hts. revert m. induction Hts as [|t ts Ht _ IH]; intros m Hm; [exact Hm|].
  cbn [fold_left]. apply IH. now apply dict_append_entry_ok.
Qed.

Lemma build_loop_entry_ok (rows : list RawRecord) (m m' : Mapping) :
  Forall entry_ok m -> build_loop rows m = Ok m' -> Forall entry_ok m'.
Proof.
  revert m. induction rows as [|record rest IH]; intros m Hm; cbn [build_loop].
  - now intros [= <-].
  - destruct (negb (Py.isdigit (Py.zfill (zipCode record) 5))
              || negb (String.length (Py.zfill (zipCode record) 5) =? 5)%nat);
      [now apply IH|].
    destruct (pick_province _) as [province_name|]; [|discriminate].
    apply IH. apply append_all_entry_ok; [|exact Hm].
    eapply Permutation_Forall; [symmetry; apply sorted_perm|].
    apply collect_locations_named.
Qed.

(** Every entry of a built mapping is a non-empty list of named places. *)
Lemma mapping_entry_ok (rows : list RawRecord) (m : Mapping) :
  fetch_and_build_mapping rows = Ok m -> Forall entry_ok m.
Proof. apply build_loop_entry_ok. constructor. Qed.

Lemma dict_get_in {V : Type} (d : list (string * V)) (k : string) (v : V) :
  dict_get String.eqb d k = Some v -> In (k, v) d.
Proof.
  induction d as [|[k' v'] t IH]; simpl; [discriminate|].
  destruct (String.eqb_spec k' k) as [->|_].
  - intros [= ->]. now left.
  - intros H. right. now apply IH.
Qed.

Lemma dict_get_none {V : Type} (d : list (string * V)) (k : string) :
  dict_get String.eqb d k = None <-> ~ In k (map fst d).
Proof.
  induction d as [|[k' v'] t IH]; simpl; [tauto|].
  destruct (String.eqb_spec k' k) as [->|Hne].
  - split; [discriminate|]. tauto.
  - rewrite IH. tauto.
Qed.

Lemma built_lookup_nonempty (rows : list RawRecord) (m : Mapping) (k : string)
    (locs : list Place) :
  fetch_and_build_mapping rows = Ok m ->
  dict_get String.eqb m k = Some locs -> locs <> [].
Proof.
  intros Hm Hget. apply mapping_entry_ok in Hm. apply dict_get_in in Hget.
  rewrite Forall_forall in Hm. exact (proj1 (Hm _ Hget)).
Qed.

(** On a built mapping the endpoint has three outcomes. *)
Lemma zipcode_lookup_built (rows : list RawRecord) (m : Mapping) (code : string) :
  fetch_and_build_mapping rows = Ok m ->
  ZipcodeLookup_get m code
  = if negb (Py.isdigit (Py.strip code) && (String.length (Py.strip code) =? 5)%nat)
    then (ErrorBody "Invalid zipcode. Must be 5 digits.", 400)
    else match dict_get String.eqb m (Py.strip code) with
         | None => (NotFoundBody "Zipcode not found in dataset." (Py.strip code), 404)
         | Some locations => (LocationsBody (Py.strip code) locations, 200)
         end.
Proof.
  intros Hm. unfold ZipcodeLookup_get. rewrite negb_andb.
  destruct (negb (Py.isdigit (Py.strip code))
            || negb (String.length (Py.strip code) =? 5)%nat);
    [reflexivity|].
  destruct (dict_get String.eqb m (Py.strip code)) as [locs|] eqn:E; [|reflexivity].
  pose proof (built_lookup_nonempty _ _ _ _ Hm E). now destruct locs.
Qed.

(** C3, amended: the code is trimmed; if it is not made of exactly five
    characters that [str.isdigit] accepts (the ASCII digits, and also other
    digit characters such as the superscript two) the answer is 400 with the
    error ["Invalid zipcode. Must be 5 digits."]; if it is and the mapping has
    no such key, the answer is 404 with the error and the code; otherwise it
    is 200 with the code and its stored list of places. *)
Theorem zipcode_lookup_cases (rows : list RawRecord) (m : Mapping) (code : string) :
  fetch_and_build_mapping rows = Ok m ->
  let code_clean := Py.strip code in
  ZipcodeLookup_get m code
  = if negb (Py.isdigit code_clean && (String.length code_clean =? 5)%nat)
    then (ErrorBody "Invalid zipcode. Must be 5 digits.", 400)
    else match dict_get String.eqb m code_clean with
         | None => (NotFoundBody "Zipcode not found in dataset." code_clean, 404)
         | Some locations => (LocationsBody code_clean locations, 200)
         end.
Proof. intros Hm. exact (zipcode_lookup_built rows m code Hm). Qed.

(** The three outcomes on the sample dataset, for the code [" 10110 "]. *)
Lemma zipcode_lookup_cases_witness :
  fetch_and_build_mapping [sample_row] = Ok sample_mapping
  /\ ZipcodeLookup_get sample_mapping " 10110 "
     = (LocationsBody "10110"
          [ {| province := Some "Bangkok"; amphoe := "Khlong Toei";
               district := "Khlong Tan" |};
            {| province := Some "Bangkok"; amphoe := "Khlong Toei";
               district := "Phra Khanong" |};
            {| province := Some "Bangkok"; amphoe := "Watthana";
               district := "Khlong Toei Nuea" |} ], 200).
Proof.
  split; [reflexivity|].
  exact (zipcode_lookup_cases [sample_row] sample_mapping " 10110 " eq_refl).
Defined.

(** Five superscript twos are not five ASCII digits, and the answer is the
    404 of an unknown code, not the 400 of an invalid one. *)
Lemma zipcode_lookup_superscript_digits :
  Py.strip superscript_twos = superscript_twos
  /\ five_ascii_digits superscript_twos = false
  /\ ZipcodeLookup_get sample_mapping superscript_twos
     = (NotFoundBody "Zipcode not found in dataset." superscript_twos, 404).
Proof. repeat split; reflexivity. Qed.

(** Five ASCII digits always pass the validation. *)
Lemma five_ascii_digits_valid (s : string) :
  five_ascii_digits s = true ->
  Py.isdigit s && (String.length s =? 5)%nat = true.
Proof.
  unfold five_ascii_digits. rewrite !andb_true_iff. intros [Hlen Hall].
  split; [|exact Hlen].
  assert (H : Py.all_digits s = true).
  { clear Hlen. induction s as [|c t IH]; [reflexivity|]. simpl in *.
    apply andb_true_iff in Hall as [Hc Ht]. rewrite (IH Ht), andb_true_r.
    unfold Py.isdigit_char. now rewrite Hc. }
  destruct s; [discriminate|exact H].
Qed.

(** C10: in a built mapping every key holds a non-empty list of places whose
    [amphoe] and [district] are not empty, and the endpoint answers 404
    exactly when the trimmed code passes the validation and is not a key. *)
Theorem mapping_entries_nonempty (rows : list RawRecord) (m : Mapping) :
  fetch_and_build_mapping rows = Ok m ->
  Forall (fun item =>
            snd item <> []
            /\ Forall (fun p => amphoe p <> "" /\ district p <> "") (snd item)) m
  /\ (forall code : string,
        snd (ZipcodeLookup_get m code) = 404
        <-> (Py.isdigit (Py.strip code) && (String.length (Py.strip code) =? 5)%nat = true
             /\ ~ In (Py.strip code) (map fst m))).
Proof.
  intros Hm. split; [exact (mapping_entry_ok _ _ Hm)|].
  intros code. rewrite (zipcode_lookup_built _ _ code Hm).
  rewrite <- dict_get_none.
  destruct (Py.isdigit (Py.strip code) && (String.length (Py.strip code) =? 5)%nat);
    simpl.
  - destruct (dict_get String.eqb m (Py.strip code)); simpl.
    + split; [discriminate|]. intros [_ H]. discriminate.
    + tauto.
  - split; [discriminate|]. intros [H _]. discriminate.
Qed.

(** The same on the sample dataset. *)
Lemma mapping_entries_nonempty_witness :
  fetch_and_build_mapping [sample_row] = Ok sample_mapping
  /\ Forall (fun item =>
               snd item <> []
               /\ Forall (fun p => amphoe p <> "" /\ district p <> "") (snd item))
            sample_mapping
  /\ (forall code : string,
        snd (ZipcodeLookup_get sample_mapping code) = 404
        <-> (Py.isdigit (Py.strip code) && (String.length (Py.strip code) =? 5)%nat = true
             /\ ~ In (Py.strip code) (map fst sample_mapping))).
Proof.
  split; [reflexivity|].
  exact (mapping_entries_nonempty [sample_row] sample_mapping eq_refl).
Defined.

(** C2, on a dataset with two rows for the code 10110: the places of the
    second row come after those of the first, so the list of the code has
    Khlong Tan twice and is not in ascending order. *)
Theorem mapping_repeated_code :
  let khlong_toei name :=
    {| province := Some "Bangkok"; amphoe := "Khlong Toei"; district := name |} in
  let locs :=
    [ khlong_toei "Khlong Tan"; khlong_toei "Phra Khanong";
      {| province := Some "Bangkok"; amphoe := "Watthana"; district := "Khlong Toei Nuea" |};
      khlong_toei "Khlong Tan" ] in
  fetch_and_build_mapping [sample_row; second_row] = Ok [("10110", locs)]
  /\ ~ NoDup locs
  /\ ~ Sorted place_le locs.
Proof.
  intros khlong_toei locs. split; [reflexivity|]. split.
  - intros H. inversion H as [|? ? Hnotin _]. apply Hnotin. simpl. tauto.
  - intros H.
    inversion H as [|? ? H1 _]; subst. inversion H1 as [|? ? H2 _]; subst.
    inversion H2 as [|? ? _ Hhd]; subst. inversion Hhd as [|? ? Hle]; subst.
    apply Hle. reflexivity.
Qed.


(** * The order of the triples *)

Lemma string_compare_refl (s : string) : String.compare s s = Eq.
Proof.
  pose proof (proj2 (OrderedTypeEx.String_as_OT.cmp_eq s s) eq_refl) as R.
  exact R.
Qed.

Lemma string_compare_lt_trans (x y z : string) :
  String.compare x y = Lt -> String.compare y z = Lt -> String.compare x z = Lt.
Proof.
  intros Hxy Hyz.
  apply OrderedTypeEx.String_as_OT.cmp_lt in Hxy, Hyz.
  apply OrderedTypeEx.String_as_OT.cmp_lt.
  eapply OrderedTypeEx.String_as_OT.lt_trans; eassumption.
Qed.

Lemma option_compare_refl (x : option string) : option_compare x x = Eq.
Proof. destruct x; simpl; [apply string_compare_refl|reflexivity]. Qed.

Lemma option_compare_eq (x y : option string) : option_compare x y = Eq -> x = y.
Proof.
  destruct x, y; simpl; try discriminate; [|reflexivity].
  intros H. now rewrite (String.compare_eq_iff _ _ H).
Qed.

Lemma option_compare_antisym (x y : option string) :
  option_compare x y = CompOpp (option_compare y x).
Proof. destruct x, y; simpl; try reflexivity. apply String.compare_antisym. Qed.

Lemma option_compare_lt_trans (x y z : option string) :
  option_compare x y = Lt -> option_compare y z = Lt -> option_compare x z = Lt.
Proof.
  destruct x, y, z; simpl; try discriminate; try reflexivity.
  apply string_compare_lt_trans.
Qed.

Lemma triple_compare_refl (x : Triple) : triple_compare x x = Eq.
Proof.
  destruct x as [[p a] d]. unfold triple_compare.
  now rewrite option_compare_refl, !string_compare_refl.
Qed.

Lemma triple_compare_eq (x y : Triple) : triple_compare x y = Eq -> x = y.
Proof.
  destruct x as [[p1 a1] d1], y as [[p2 a2] d2]. unfold triple_compare.
  destruct (option_compare p1 p2) eqn:P; try discriminate.
  destruct (String.compare a1 a2) eqn:Ea; try discriminate. intros Ed.
  apply option_compare_eq in P. apply String.compare_eq_iff in Ea, Ed. congruence.
Qed.

Lemma triple_compare_antisym (x y : Triple) :
  triple_compare x y = CompOpp (triple_compare y x).
Proof.
  destruct x as [[p1 a1] d1], y as [[p2 a2] d2]. unfold triple_compare.
  rewrite (option_compare_antisym p1 p2), (String.compare_antisym a1 a2),
    (String.compare_antisym d1 d2).
  destruct (option_compare p2 p1); simpl; try reflexivity.
  destruct (String.compare a2 a1); reflexivity.
Qed.

Lemma triple_lt_trans (x y z : Triple) : triple_lt x y -> triple_lt y z -> triple_lt x z.
Proof.
  destruct x as [[p1 a1] d1], y as [[p2 a2] d2], z as [[p3 a3] d3].
  unfold triple_lt, triple_compare.
  destruct (option_compare p1 p2) eqn:P12; try discriminate;
    destruct (option_compare p2 p3) eqn:P23; try discriminate.
  - apply option_compare_eq in P12, P23. subst. rewrite option_compare_refl.
    destruct (String.compare a1 a2) eqn:A12; try discriminate;
      destruct (String.compare a2 a3) eqn:A23; try discriminate.
    + apply String.compare_eq_iff in A12, A23. subst. rewrite string_compare_refl.
      apply string_compare_lt_trans.
    + apply String.compare_eq_iff in A12. subst. now rewrite A23.
    + apply String.compare_eq_iff in A23. subst. now rewrite A12.
    + now rewrite (string_compare_lt_trans _ _ _ A12 A23).
  - apply option_compare_eq in P12. subst. now rewrite P23.
  - apply option_compare_eq in P23. subst. now rewrite P12.
  - now rewrite (option_compare_lt_trans _ _ _ P12 P23).
Qed.

Lemma triple_leb_total (x y : Triple) : triple_leb x y = true \/ triple_leb y x = true.
Proof.
  unfold triple_leb. rewrite (triple_compare_antisym x y).
  destruct (triple_compare y x); simpl; auto.
Qed.

Lemma triple_leb_cases (x y : Triple) : holds triple_leb x y <-> x = y \/ triple_lt x y.
Proof.
  unfold holds, triple_leb, triple_lt. destruct (triple_compare x y) eqn:E.
  - apply triple_compare_eq in E. intuition.
  - intuition.
  - split; [discriminate|]. intros [->|H]; [|discriminate].
    rewrite triple_compare_refl in E. discriminate.
Qed.

Lemma triple_eqb_eq (x y : Triple) : triple_eqb x y = true <-> x = y.
Proof.
  unfold triple_eqb. split.
  - destruct (triple_compare x y) eqn:E; try discriminate.
    intros _. now apply triple_compare_eq.
  - intros ->. now rewrite triple_compare_refl.
Qed.

Lemma place_compare_of_triples (x y : Triple) :
  place_compare (place_of_triple x) (place_of_triple y) = triple_compare x y.
Proof. now destruct x as [[p1 a1] d1], y as [[p2 a2] d2]. Qed.

(** [set_add] keeps a list free of repetitions. *)
Lemma set_add_nodup {A : Type} (eqb : A -> A -> bool) (x : A) (s : list A) :
  (forall a b, eqb a b = true <-> a = b) -> NoDup s -> NoDup (set_add eqb x s).
Proof.
  intros Heq Hs. unfold set_add. destruct (existsb (eqb x) s) eqn:E; [exact Hs|].
  apply NoDup_app; [exact Hs|repeat constructor; intros []|].
  intros a Ha [<-|[]].
  assert (existsb (eqb x) s = true); [|congruence].
  apply existsb_exists. exists x. split; [exact Ha|]. now apply Heq.
Qed.

Lemma collect_locations_nodup (province_name : option string)
    (district_id_to_name : list (option string * option string))
    (sds : list SubDistrict) :
  NoDup (collect_locations province_name district_id_to_name sds).
Proof.
  unfold collect_locations. generalize (@nil Triple) (NoDup_nil Triple).
  induction sds as [|sd rest IH]; intros acc Hacc; [exact Hacc|].
  cbn [fold_left]. apply IH.
  match goal with |- NoDup (if ?c then _ else _) => destruct c end; [exact Hacc|].
  apply set_add_nodup; [exact triple_eqb_eq|exact Hacc].
Qed.

(** The sorted triples of one row are strictly ascending. *)
Lemma sorted_triples_strict (ts : list Triple) :
  NoDup ts -> StronglySorted triple_lt (sorted triple_leb ts).
Proof.
  intros Hnd.
  apply (sorted_nodup_strict_gen (holds triple_leb) triple_lt triple_leb_cases
           triple_lt_trans).
  - apply sorted_ok. exact triple_leb_total.
  - eapply Permutation_NoDup; [symmetry; apply sorted_perm|exact Hnd].
Qed.

Lemma places_of_triples_strict (ts : list Triple) :
  StronglySorted triple_lt ts -> StronglySorted place_lt (map place_of_triple ts).
Proof.
  induction 1 as [|t ts Hs IH Hall]; simpl; constructor; [exact IH|].
  rewrite Forall_map. eapply Forall_impl; [|exact Hall].
  intros u Hu. unfold place_lt. now rewrite place_compare_of_triples.
Qed.

(** Appending the places of a row under a key that is new. *)
Lemma dict_append_fresh {X : Type} (d : list (string * list X)) (k : string)
    (xs : list X) (x : X) :
  ~ In k (map fst d) ->
  dict_append (d ++ [(k, xs)])%list k x = (d ++ [(k, xs ++ [x])])%list.
Proof.
  induction d as [|[k' ys] t IH]; simpl; intros Hnin.
  - now rewrite String.eqb_refl.
  - destruct (String.eqb_spec k' k) as [->|_]; [tauto|]. rewrite IH; tauto.
Qed.

Lemma dict_append_new {X : Type} (d : list (string * list X)) (k : string) (x : X) :
  ~ In k (map fst d) -> dict_append d k x = (d ++ [(k, [x])])%list.
Proof.
  induction d as [|[k' ys] t IH]; simpl; intros Hnin; [reflexivity|].
  destruct (String.eqb_spec k' k) as [->|_]; [tauto|]. rewrite IH; tauto.
Qed.

Lemma append_all_last {X Y : Type} (f : Y -> X) (ts : list Y) (d : list (string * list X))
    (k : string) (xs : list X) :
  ~ In k (map fst d) ->
  fold_left (fun m t => dict_append m k (f t)) ts (d ++ [(k, xs)])%list
  = (d ++ [(k, xs ++ map f ts)])%list.
Proof.
  intros Hnin. revert xs. induction ts as [|t ts IH]; intros xs; simpl.
  - now rewrite app_nil_r.
  - rewrite dict_append_fresh by exact Hnin. rewrite IH.
    now rewrite <- app_assoc.
Qed.

Lemma append_all_fresh {X Y : Type} (f : Y -> X) (ts : list Y) (d : list (string * list X))
    (k : string) :
  ~ In k (map fst d) ->
  fold_left (fun m t => dict_append m k (f t)) ts d
  = match ts with
    | [] => d
    | _ :: _ => (d ++ [(k, map f ts)])%list
    end.
Proof.
  intros Hnin. destruct ts as [|t ts]; [reflexivity|].
  cbn [fold_left]. rewrite dict_append_new by exact Hnin.
  now rewrite append_all_last.
Qed.

Lemma build_loop_sorted (rows : list RawRecord) (m m' : Mapping) :
  NoDup (map padded_code (filter kept rows)) ->
  (forall k, In k (map fst m) -> ~ In k (map padded_code (filter kept rows))) ->
  NoDup (map fst m) ->
  Forall (fun item => StronglySorted place_lt (snd item)) m ->
  build_loop rows m = Ok m' ->
  NoDup (map fst m')
  /\ Forall (fun item => StronglySorted place_lt (snd item)) m'.
Proof.
  revert m. induction rows as [|record rest IH]; intros m Hcodes Hfresh Hkeys Hm;
    cbn [build_loop].
  - intros [= <-]. now split.
  - fold (padded_code record). rewrite <- negb_andb. fold (kept record).
    cbn [filter] in Hcodes, Hfresh.
    destruct (kept record); cbn [negb]; [|now apply IH].
    cbn [map] in Hcodes, Hfresh.
    inversion Hcodes as [|? ? Hnotin Hcodes']; subst.
    destruct (pick_province _) as [province_name|]; [|discriminate].
    assert (Hnew : ~ In (padded_code record) (map fst m)).
    { intros H. apply (Hfresh _ H). now left. }
    rewrite (append_all_fresh place_of_triple _ m _ Hnew).
    match goal with |- context [sorted triple_leb ?u] => set (ts := sorted triple_leb u) end.
    assert (Hts : StronglySorted place_lt (map place_of_triple ts)).
    { apply places_of_triples_strict, sorted_triples_strict, collect_locations_nodup. }
    destruct ts as [|t ts'].
    + apply IH; try assumption. intros k Hk Hin. apply (Hfresh k Hk). now right.
    + apply IH; try assumption.
      * intros k. rewrite map_app, in_app_iff. simpl.
        intros [Hk|[<-|[]]]; [|exact Hnotin].
        intros Hin. apply (Hfresh k Hk). now right.
      * rewrite map_app. simpl. apply NoDup_app; [exact Hkeys|repeat constructor; intros []|].
        intros k Hk [<-|[]]. contradiction.
      * apply Forall_app. split; [exact Hm|]. constructor; [exact Hts|constructor].
Qed.

(** When every kept row has a code of its own, the keys of the mapping are
    distinct and the places of each code are strictly ascending: in order
    and without repetition.  This is the case that the builder handles. *)
Lemma mapping_sorted_when_codes_distinct (rows : list RawRecord) (m : Mapping) :
  NoDup (map padded_code (filter kept rows)) ->
  fetch_and_build_mapping rows = Ok m ->
  NoDup (map fst m)
  /\ Forall (fun item => StronglySorted place_lt (snd item) /\ NoDup (snd item)) m.
Proof.
  intros Hcodes Hm.
  destruct (build_loop_sorted rows [] m Hcodes) as [Hk Hs]; try assumption.
  - intros k [].
  - constructor.
  - constructor.
  - split; [exact Hk|]. eapply Forall_impl; [|exact Hs].
    intros [k locs] H. simpl in *. split; [exact H|].
    clear -H. induction H as [|p ps Hs IH Hall]; constructor; [|exact IH].
    intros Hin. rewrite Forall_forall in Hall. specialize (Hall _ Hin).
    unfold place_lt, place_compare in Hall. rewrite triple_compare_refl in Hall.
    discriminate.
Qed.


(** * The keys of the mapping and the lists of the index *)

Lemma dict_append_keys_ok {X : Type} (P : string -> Prop) (d : list (string * list X))
    (k : string) (x : X) :
  P k -> NoDup (map fst d) -> Forall P (map fst d) ->
  NoDup (map fst (dict_append d k x)) /\ Forall P (map fst (dict_append d k x)).
Proof.
  intros Hk Hnd Hall.
  destruct (dict_append_keys d k x) as [[Hin ->]|[Hnin ->]]; [now split|]. split.
  - apply NoDup_app; [exact Hnd|repeat constructor; intros []|].
    intros c Hc [<-|[]]. contradiction.
  - apply Forall_app. split; [exact Hall|now repeat constructor].
Qed.

Lemma build_loop_keys (rows : list RawRecord) (m m' : Mapping) :
  NoDup (map fst m) ->
  Forall (fun k => Py.isdigit k && (String.length k =? 5)%nat = true) (map fst m) ->
  build_loop rows m = Ok m' ->
  NoDup (map fst m')
  /\ Forall (fun k => Py.isdigit k && (String.length k =? 5)%nat = true) (map fst m').
Proof.
  revert m. induction rows as [|record rest IH]; intros m Hnd Hall; cbn [build_loop].
  - intros [= <-]. now split.
  - rewrite <- negb_andb.
    destruct (Py.isdigit (Py.zfill (zipCode record) 5)
              && (String.length (Py.zfill (zipCode record) 5) =? 5)%nat) eqn:E;
      cbn [negb]; [|now apply IH].
    destruct (pick_province _) as [province_name|]; [|discriminate].
    match goal with |- context [sorted triple_leb ?u] => generalize (sorted triple_leb u) end.
    intros ts. revert m Hnd Hall.
    induction ts as [|t ts IHts]; intros m Hnd Hall; cbn [fold_left]; [now apply IH|].
    destruct (dict_append_keys_ok _ m (Py.zfill (zipCode record) 5) (place_of_triple t)
                E Hnd Hall) as [H1 H2].
    now apply IHts.
Qed.

(** The keys of a built mapping are distinct, each of five digits. *)
Lemma mapping_keys (rows : list RawRecord) (m : Mapping) :
  fetch_and_build_mapping rows = Ok m ->
  NoDup (map fst m)
  /\ Forall (fun k => Py.isdigit k && (String.length k =? 5)%nat = true) (map fst m).
Proof. apply build_loop_keys; constructor. Qed.

Lemma string_set_nodup (xs acc : list string) :
  NoDup acc ->
  NoDup (fold_left (fun s x => if Py.truthy x then set_add String.eqb x s else s) xs acc).
Proof.
  revert acc. induction xs as [|x t IH]; intros acc Hacc; [exact Hacc|].
  cbn [fold_left]. apply IH. destruct (Py.truthy x); [|exact Hacc].
  apply set_add_nodup; [exact String.eqb_eq|exact Hacc].
Qed.

Lemma sorted_strings_strict (xs : list string) :
  NoDup xs -> StronglySorted str_lt (sorted String.leb xs).
Proof.
  intros Hnd. apply sorted_nodup_strict.
  - apply (sorted_ok String.leb str_le_total).
  - eapply Permutation_NoDup; [symmetry; apply sorted_perm|exact Hnd].
Qed.

(** The four lists of the index are strictly ascending, so sorted and
    without repetition. *)
Lemma index_lists_sorted (rows : list RawRecord) (m : Mapping) :
  fetch_and_build_mapping rows = Ok m ->
  StronglySorted str_lt (UNIQUE_ZIPCODES (build_index m))
  /\ StronglySorted str_lt (UNIQUE_PROVINCES (build_index m))
  /\ StronglySorted str_lt (UNIQUE_AMPHOES (build_index m))
  /\ StronglySorted str_lt (UNIQUE_DISTRICTS (build_index m)).
Proof.
  intros Hm. destruct (mapping_keys _ _ Hm) as [Hnd _]. simpl.
  repeat split;
    [now apply sorted_strings_strict
    |apply sorted_strings_strict, string_set_nodup; constructor ..].
Qed.

Example sample_index :
  build_index sample_mapping
  = {| ZIPCODE_TO_LOCATIONS := sample_mapping;
       RECORDS :=
         [ record_of "10110"
             {| province := Some "Bangkok"; amphoe := "Khlong Toei";
                district := "Khlong Tan" |};
           record_of "10110"
             {| province := Some "Bangkok"; amphoe := "Khlong Toei";
                district := "Phra Khanong" |};
           record_of "10110"
             {| province := Some "Bangkok"; amphoe := "Watthana";
                district := "Khlong Toei Nuea" |} ];
       UNIQUE_PROVINCES := ["Bangkok"];
       UNIQUE_AMPHOES := ["Khlong Toei"; "Watthana"];
       UNIQUE_DISTRICTS := ["Khlong Tan"; "Khlong Toei Nuea"; "Phra Khanong"];
       UNIQUE_ZIPCODES := ["10110"] |}.
Proof. reflexivity. Qed.

(** Specification property 10 on the sample index: [q=kh&limit=2]. *)
Example suggest_kh :
  Suggest_get (build_index sample_mapping) [("q", "KH"); ("limit", "2")]
  = (SuggestBody [] [] ["Khlong Toei"] ["Khlong Tan"; "Khlong Toei Nuea"], 200).
Proof. reflexivity. Qed.

(** * The pages against the API *)

Lemma strip_idem (s : string) : Py.strip (Py.strip s) = Py.strip s.
Proof.
  unfold Py.strip at 1.
  rewrite TextFacts.lstrip_fixed, TextFacts.rstrip_fixed; [reflexivity| |].
  - apply TextFacts.ends_ok_rstrip.
  - apply TextFacts.starts_ok_rstrip, TextFacts.starts_ok_lstrip.
Qed.

(** X1: whitespace around the code never changes the answer of the zipcode
    endpoint: the code and its trimmed form get the same response. *)
Theorem zipcode_lookup_ignores_surrounding_space (m : Mapping) (code : string) :
  ZipcodeLookup_get m code = ZipcodeLookup_get m (Py.strip code).
Proof. unfold ZipcodeLookup_get. now rewrite strip_idem. Qed.

(** X2: the zipcode page agrees with the zipcode endpoint on every code that
    is not empty after trimming: it shows the data of a 200 answer, the
    message of a 400 answer, and its own message ["Zipcode not found."] for a
    404 answer; for an empty code it shows neither data nor error, where the
    endpoint answers 400. *)
Theorem ui_zipcode_agrees (m : Mapping) (values : Args) :
  let code := args_get values "code" "" in
  let page := ui_zipcode m values in
  ZipcodePage.code page = Py.strip code
  /\ match Py.strip code with
     | EmptyString =>
         ZipcodePage.data page = None /\ ZipcodePage.error page = None
         /\ snd (ZipcodeLookup_get m code) = 400
     | String _ _ =>
         match ZipcodeLookup_get m code with
         | (LocationsBody c locs, status) =>
             status = 200
             /\ ZipcodePage.data page = Some (c, locs) /\ ZipcodePage.error page = None
         | (NotFoundBody _ _, status) =>
             status = 404
             /\ ZipcodePage.data page = None
             /\ ZipcodePage.error page = Some "Zipcode not found."
         | (ErrorBody e, status) =>
             status = 400
             /\ ZipcodePage.data page = None /\ ZipcodePage.error page = Some e
         | _ => False
         end
     end.
Proof.
  intros code page. unfold page, ui_zipcode, ZipcodeLookup_get. fold code.
  destruct (Py.strip code) as [|c0 s0] eqn:E.
  - simpl. auto.
  - cbn [Py.truthy].
    destruct (negb (Py.isdigit (String c0 s0))
              || negb (String.length (String c0 s0) =? 5)%nat).
    + simpl. auto.
    + destruct (dict_get String.eqb m (String c0 s0)) as [[|p locs]|]; simpl; auto.
Qed.

Lemma ui_reverse_loop_same (params : Args) (fuzzy : bool) (records : list Rec.t)
    (grouped : list (string * list Place)) :
  fold_left (ui_reverse_step params fuzzy) records grouped
  = reverse_loop (args_get params "province" "") (args_get params "amphoe" "")
      (args_get params "district" "") fuzzy records grouped.
Proof. reflexivity. Qed.

(** X3: the reverse page shows the first 100 groups of the answer of the
    reverse endpoint for the same parameters, and an empty list where the
    endpoint answers 404; it computes them as soon as one of [province],
    [amphoe], [district] or [fuzzy] (default ["false"]) is not empty. *)
Theorem ui_reverse_agrees (RECORDS : list Rec.t) (values : Args) :
  let province := args_get values "province" "" in
  let amphoe := args_get values "amphoe" "" in
  let district := args_get values "district" "" in
  let fuzzy := args_get values "fuzzy" "false" in
  ui_reverse RECORDS values
  = {| ReversePage.params :=
         [("province", province); ("amphoe", amphoe); ("district", district);
          ("fuzzy", fuzzy)];
       ReversePage.results :=
         if Py.truthy province || Py.truthy amphoe || Py.truthy district
            || Py.truthy fuzzy
         then Some match ReverseLookup_get RECORDS values with
                   | (ReverseBody groups, _) => firstn 100 groups
                   | _ => []
                   end
         else None |}.
Proof.
  intros province amphoe district fuzzy.
  unfold ui_reverse, ReverseLookup_get. fold province amphoe district fuzzy.
  set (params := [("province", province); ("amphoe", amphoe);
                  ("district", district); ("fuzzy", fuzzy)]).
  replace (existsb (fun kv => Py.truthy (snd kv)) params)
    with (Py.truthy province || Py.truthy amphoe || Py.truthy district
          || Py.truthy fuzzy)
    by (simpl; now rewrite orb_false_r, !orb_assoc).
  match goal with |- (if ?c then _ else _) = _ => destruct c end; [|reflexivity].
  rewrite ui_reverse_loop_same.
  change (args_get params "fuzzy" "") with fuzzy.
  change (args_get params "province" "") with province.
  change (args_get params "amphoe" "") with amphoe.
  change (args_get params "district" "") with district.
  rewrite slice_from_zero.
  now destruct (reverse_loop province amphoe district (flag fuzzy) RECORDS []).
Qed.

Lemma contains_empty (s : string) : Py.contains s "" = true.
Proof. destruct s; reflexivity. Qed.

Lemma filter_all {A : Type} (f : A -> bool) (l : list A) :
  (forall x, f x = true) -> filter f l = l.
Proof.
  intros H. induction l as [|x t IH]; simpl; [reflexivity|]. now rewrite H, IH.
Qed.

(** X4: for every [q] that is not empty, the suggest page shows exactly the
    body that the suggest endpoint returns for [q] with its default limit of
    10 - also when [q] is only whitespace, where the endpoint takes its
    branch for an empty normalized query; for an empty [q] it shows none. *)
Theorem ui_suggest_agrees (idx : Index) (values : Args) :
  let q := args_get values "q" "" in
  ui_suggest idx values
  = {| SuggestPage.q := q;
       SuggestPage.suggestions :=
         if Py.truthy q then Some (fst (Suggest_get idx [("q", q)])) else None |}.
Proof.
  intros q. unfold ui_suggest. fold q.
  destruct (Py.truthy q); [|reflexivity].
  unfold Suggest_get.
  change (args_get [("q", q)] "q" "") with q.
  change (suggest_limit [("q", q)]) with 10.
  destruct (normalize_text (Some q)) as [|c s] eqn:E; [|reflexivity].
  cbn [Py.truthy negb fst].
  rewrite !filter_values_firstn by lia.
  rewrite !slice_from_zero.
  rewrite !filter_all; [reflexivity|..]; intros x;
    first [apply contains_empty | now destruct x].
Qed.

(** X5: whenever the search page computes results, its [total] is the
    [total] that the search endpoint reports for the same parameters. *)
Theorem ui_search_total_agrees (RECORDS : list Rec.t) (values : Args) :
  let page := ui_search RECORDS values in
  match results page with
  | None => total page = 0
  | Some rows =>
      exists limit offset paged,
        ForwardSearch_get RECORDS values
        = (SearchBody (total page) limit offset paged, 200)
        /\ (List.length rows <= 100)%nat
  end.
Proof.
  intros page. unfold page. rewrite ui_search_page. cbv zeta.
  match goal with |- context [if ?c then _ else _] => destruct c end;
    [|reflexivity].
  cbn [results total].
  exists (search_limit values), (search_offset values). eexists. split.
  - unfold ForwardSearch_get. rewrite search_loop_filter. cbn [app].
    unfold len. rewrite length_map. reflexivity.
  - rewrite length_firstn. apply Nat.le_min_l.
Qed.

(** * More on matching, search, suggestions and reverse lookup *)


Lemma prefix_refl (s : string) : String.prefix s s = true.
Proof. apply prefix_iff. exists "". induction s; simpl; congruence. Qed.







(** X8: the page of results that the search returns has exactly
    [min(limit, max(0, total - offset))] rows, with [limit] between 1 and 200
    and [offset] not negative: never more than 200 rows, and none once
    [offset] reaches [total]. *)
Theorem search_page_size (RECORDS : list Rec.t) (args : Args) :
  exists total limit offset paged,
    ForwardSearch_get RECORDS args = (SearchBody total limit offset paged, 200)
    /\ 1 <= limit <= 200
    /\ 0 <= offset
    /\ len paged = Z.min limit (Z.max 0 (total - offset)).
Proof.
  unfold ForwardSearch_get. do 4 eexists. split; [reflexivity|].
  pose proof (search_limit_range args). pose proof (search_offset_range args).
  repeat split; try lia.
  rewrite slice_window. unfold len. rewrite length_firstn, length_skipn. lia.
Qed.

Lemma firstn_incl {A : Type} (n : nat) (l : list A) : incl (firstn n l) l.
Proof.
  revert l. induction n as [|n IH]; intros [|x t]; simpl;
    try (intros z Hz; now destruct Hz).
  intros z [<-|H]; [now left|right; now apply IH].
Qed.

Lemma firstn_len_le {A : Type} (n : Z) (l : list A) :
  0 <= n -> len (firstn (Z.to_nat n) l) <= n.
Proof. intros H. unfold len. rewrite length_firstn. lia. Qed.

(** X9: the suggest endpoint returns at most [limit] entries in each of its
    four lists, [limit] being between 1 and 20, and every entry is taken from
    the corresponding list of the index. *)
Theorem suggest_bounded (idx : Index) (args : Args) :
  exists zs ps ams ds,
    Suggest_get idx args = (SuggestBody zs ps ams ds, 200)
    /\ 1 <= suggest_limit args <= 20
    /\ len zs <= suggest_limit args /\ len ps <= suggest_limit args
    /\ len ams <= suggest_limit args /\ len ds <= suggest_limit args
    /\ incl zs (UNIQUE_ZIPCODES idx) /\ incl ps (UNIQUE_PROVINCES idx)
    /\ incl ams (UNIQUE_AMPHOES idx) /\ incl ds (UNIQUE_DISTRICTS idx).
Proof.
  pose proof (suggest_limit_range args) as Hl.
  unfold Suggest_get.
  destruct (negb (Py.truthy (normalize_text (Some (args_get args "q" ""))))).
  - do 4 eexists. split; [reflexivity|]. rewrite !slice_from_zero.
    repeat split; try lia; try (apply firstn_len_le; lia); apply firstn_incl.
  - do 4 eexists. split; [reflexivity|].
    rewrite !filter_values_firstn by lia. rewrite slice_from_zero.
    repeat split; try lia; try (apply firstn_len_le; lia);
      (eapply incl_tran; [apply firstn_incl|apply incl_filter]).
Qed.

Lemma dict_append_count (d : list (string * list Place)) (k : string) (x : Place) :
  places_count (dict_append d k x) = S (places_count d).
Proof.
  unfold places_count. induction d as [|[k' xs] t IH]; simpl; [reflexivity|].
  destruct (String.eqb k' k); simpl.
  - rewrite !length_app. simpl. lia.
  - rewrite !length_app, IH. lia.
Qed.

Lemma dict_append_nonempty (d : list (string * list Place)) (k : string) (x : Place) :
  Forall (fun g => snd g <> []) d -> Forall (fun g => snd g <> []) (dict_append d k x).
Proof.
  induction 1 as [|[k' xs] t Hx Ht IH]; simpl.
  - repeat constructor. discriminate.
  - destruct (String.eqb k' k); constructor; try assumption.
    simpl. now destruct xs.
Qed.

Lemma fold_append_count (ms : list Rec.t) (d : list (string * list Place)) :
  Forall (fun g => snd g <> []) d ->
  let d' := fold_left (fun g r => dict_append g (Rec.code r) (place_of r)) ms d in
  Forall (fun g => snd g <> []) d'
  /\ places_count d' = (places_count d + List.length ms)%nat.
Proof.
  revert d. induction ms as [|r t IH]; intros d Hd; simpl.
  - split; [exact Hd|lia].
  - destruct (IH _ (dict_append_nonempty d (Rec.code r) (place_of r) Hd)) as [H1 H2].
    split; [exact H1|]. rewrite H2, dict_append_count. lia.
Qed.

Lemma places_count_perm (d d' : list (string * list Place)) :
  Permutation d d' -> places_count d = places_count d'.
Proof.
  unfold places_count.
  induction 1 as [|x l l' _ IH|x y l|l l' l'' _ IH1 _ IH2]; simpl;
    rewrite ?length_app; try lia.
Qed.

(** X10: the reverse lookup neither loses nor repeats a record: in a 200
    answer no group is empty and the groups hold, all together, as many
    places as there are records passing the filters; the answer is 404 only
    when no record passes. *)
Theorem reverse_lookup_keeps_every_record (RECORDS : list Rec.t) (args : Args) :
  let matching :=
    filter (reverse_filter (args_get args "province" "") (args_get args "amphoe" "")
              (args_get args "district" "") (flag (args_get args "fuzzy" "false")))
           RECORDS in
  match ReverseLookup_get RECORDS args with
  | (ReverseBody groups, status) =>
      status = 200
      /\ Forall (fun g => snd g <> []) groups
      /\ places_count groups = List.length matching
  | (ErrorBody _, status) => status = 404 /\ matching = []
  | _ => False
  end.
Proof.
  intros matching. unfold ReverseLookup_get. rewrite reverse_loop_filter. fold matching.
  destruct (fold_append_count matching [] (Forall_nil _)) as [Hne Hcount].
  change (places_count []) with 0%nat in Hcount. rewrite Nat.add_0_l in Hcount.
  destruct (fold_left _ matching []) as [|g gs] eqn:E.
  - split; [reflexivity|]. destruct matching; [reflexivity|discriminate].
  - pose proof (sorted_perm item_leb (g :: gs)) as Hp.
    split; [reflexivity|]. split.
    + eapply Permutation_Forall; [symmetry; exact Hp|exact Hne].
    + now rewrite (places_count_perm _ _ Hp).
Qed.

(** * More on the mapping builder *)

(** X11: the keys of a built mapping are pairwise distinct, and each is a
    string of exactly five characters that are all digits. *)
Theorem built_keys_five_digits (rows : list RawRecord) (m : Mapping) :
  fetch_and_build_mapping rows = Ok m ->
  NoDup (map fst m)
  /\ Forall (fun k => Py.isdigit k = true /\ String.length k = 5%nat) (map fst m).
Proof.
  intros Hm. destruct (mapping_keys rows m Hm) as [Hnd Hall]. split; [exact Hnd|].
  eapply Forall_impl; [|exact Hall]. intros k Hk.
  apply andb_true_iff in Hk as [H1 H2]. split; [exact H1|now apply Nat.eqb_eq].
Qed.

(** The same on the sample dataset. *)
Lemma built_keys_five_digits_witness :
  fetch_and_build_mapping [sample_row] = Ok sample_mapping
  /\ NoDup (map fst sample_mapping)
  /\ Forall (fun k => Py.isdigit k = true /\ String.length k = 5%nat)
            (map fst sample_mapping).
Proof.
  split; [reflexivity|].
  exact (built_keys_five_digits [sample_row] sample_mapping eq_refl).
Defined.

Lemma build_loop_kept_only (rows : list RawRecord) (m : Mapping) :
  build_loop rows m = build_loop (filter kept rows) m.
Proof.
  revert m. induction rows as [|record rest IH]; intros m; [reflexivity|].
  cbn [filter]. unfold kept at 1, padded_code.
  destruct (Py.isdigit (Py.zfill (zipCode record) 5)
            && (String.length (Py.zfill (zipCode record) 5) =? 5)%nat) eqn:E.
  - cbn [build_loop]. rewrite <- negb_andb, E. cbn [negb].
    destruct (pick_province _); [apply IH|reflexivity].
  - cbn [build_loop]. rewrite <- negb_andb, E. cbn [negb]. apply IH.
Qed.

(** X12: a row whose zero-padded code is not five digits is discarded as a
    whole: the builder gives the same result, mapping or error, on the
    dataset and on the dataset without such rows. *)
Theorem discarded_rows_change_nothing (rows : list RawRecord) :
  fetch_and_build_mapping rows = fetch_and_build_mapping (filter kept rows).
Proof. unfold fetch_and_build_mapping. apply build_loop_kept_only. Qed.

(** X13: when no two kept rows have the same zero-padded code, the places
    of every code are in strictly ascending order of (province, amphoe,
    district), hence without repetition. *)
Theorem distinct_codes_give_sorted_places (rows : list RawRecord) (m : Mapping) :
  NoDup (map padded_code (filter kept rows)) ->
  fetch_and_build_mapping rows = Ok m ->
  Forall (fun item => StronglySorted place_lt (snd item) /\ NoDup (snd item)) m.
Proof.
  intros Hcodes Hm.
  exact (proj2 (mapping_sorted_when_codes_distinct rows m Hcodes Hm)).
Qed.

(** The same on the sample dataset. *)
Lemma distinct_codes_give_sorted_places_witness :
  NoDup (map padded_code (filter kept [sample_row]))
  /\ fetch_and_build_mapping [sample_row] = Ok sample_mapping
  /\ Forall (fun item => StronglySorted place_lt (snd item) /\ NoDup (snd item))
            sample_mapping.
Proof.
  assert (H : NoDup (map padded_code (filter kept [sample_row]))).
  { repeat constructor. intros []. }
  split; [exact H|]. split; [reflexivity|].
  exact (distinct_codes_give_sorted_places [sample_row] sample_mapping H eq_refl).
Defined.

(** Membership in the set of triples of a row. *)
Lemma set_add_in {A : Type} (eqb : A -> A -> bool) (x y : A) (s : list A) :
  (forall a b, eqb a b = true <-> a = b) ->
  In y (set_add eqb x s) <-> In y s \/ y = x.
Proof.
  intros Heq. unfold set_add. destruct (existsb (eqb x) s) eqn:E.
  - apply existsb_exists in E as (z & Hz & Hxz). apply Heq in Hxz. subst z.
    split; [tauto|]. intros [H | ->]; assumption.
  - rewrite in_app_iff. simpl. split; [intros [H|[H|[]]]|intros [H|H]]; auto.
Qed.

Lemma fold_set_add_in {A B : Type} (eqb : A -> A -> bool) (skip : B -> bool)
    (mk : B -> A) (l : list B) (acc : list A) (t : A) :
  (forall a b, eqb a b = true <-> a = b) ->
  In t (fold_left (fun s b => if skip b then s else set_add eqb (mk b) s) l acc)
  <-> In t acc \/ exists b, In b l /\ skip b = false /\ t = mk b.
Proof.
  intros Heq. revert acc. induction l as [|b rest IH]; intros acc; cbn [fold_left].
  - split; [tauto|]. intros [H|(b & Hnil & _)]; [exact H|destruct Hnil].
  - rewrite IH. destruct (skip b) eqn:E.
    + split.
      * intros [H|(x & H1 & H2)]; [now left|].
        right. exists x. split; [now right|exact H2].
      * intros [H|(x & [<-|H1] & H2 & H3)]; [now left|congruence|].
        right. exists x. tauto.
    + rewrite (set_add_in eqb (mk b) t acc Heq). split.
      * intros [[H|H]|(x & H1 & H2)]; [now left| |].
        -- right. exists b. split; [now left|]. tauto.
        -- right. exists x. split; [now right|exact H2].
      * intros [H|(x & [<-|H1] & H2 & H3)]; [tauto|tauto|].
        right. exists x. tauto.
Qed.

Lemma collect_locations_in (province_name : option string)
    (names : list (option string * option string)) (sds : list SubDistrict)
    (t : Triple) :
  In t (collect_locations province_name names sds) <->
  exists sd,
    In sd sds
    /\ falsy (subDistrictName sd) = false
    /\ falsy (match dict_get option_eqb names (sd_districtId sd) with
              | Some name => name
              | None => None
              end) = false
    /\ t = (province_name,
            unwrap (match dict_get option_eqb names (sd_districtId sd) with
                    | Some name => name
                    | None => None
                    end),
            unwrap (subDistrictName sd)).
Proof.
  unfold collect_locations.
  rewrite (fold_set_add_in triple_eqb
             (fun sd => falsy (subDistrictName sd)
                        || falsy (match dict_get option_eqb names (sd_districtId sd) with
                                  | Some name => name
                                  | None => None
                                  end))
             (fun sd => (province_name,
                         unwrap (match dict_get option_eqb names (sd_districtId sd) with
                                 | Some name => name
                                 | None => None
                                 end),
                         unwrap (subDistrictName sd)))
             sds [] t triple_eqb_eq).
  split.
  - intros [[]|(sd & H1 & H2 & H3)]. apply orb_false_iff in H2 as [H2 H4].
    exists sd. tauto.
  - intros (sd & H1 & H2 & H3 & H4). right. exists sd.
    rewrite H2, H3. tauto.
Qed.

Lemma stored_dict_append (d : Mapping) (k : string) (x : Place) (c : string) (p : Place) :
  stored (dict_append d k x) c p <-> stored d c p \/ (c = k /\ p = x).
Proof.
  unfold stored. induction d as [|[k' xs] t IH]; simpl.
  - destruct (String.eqb_spec k c) as [->|Hne].
    + split.
      * intros (locs & [= <-] & [<-|[]]). auto.
      * intros [(locs & H & _)|[_ ->]]; [discriminate|]. exists [x]. simpl. auto.
    + split.
      * intros (locs & H & _). discriminate.
      * intros [(locs & H & _)|[-> _]]; [discriminate|congruence].
  - destruct (String.eqb_spec k' k) as [->|Hk]; simpl.
    + destruct (String.eqb_spec k c) as [->|Hc].
      * split.
        -- intros (locs & [= <-] & Hin). apply in_app_iff in Hin as [H|[<-|[]]]; eauto.
        -- intros [(locs & [= <-] & Hin)|[_ ->]]; eexists; split; try reflexivity;
             apply in_app_iff; simpl; auto.
      * split; [intros H; now left|intros [H|[-> _]]; [exact H|congruence]].
    + destruct (String.eqb_spec k' c) as [->|Hc].
      * split; [intros H; now left|intros [H|[-> _]]; [exact H|congruence]].
      * exact IH.
Qed.

Lemma stored_append_all (ts : list Triple) (d : Mapping) (k c : string) (p : Place) :
  stored (fold_left (fun m t => dict_append m k (place_of_triple t)) ts d) c p
  <-> stored d c p \/ (c = k /\ In p (map place_of_triple ts)).
Proof.
  revert d. induction ts as [|t ts IH]; intros d; cbn [fold_left map].
  - simpl. tauto.
  - rewrite IH, stored_dict_append. simpl. intuition (subst; auto).
Qed.

Lemma place_of_sorted_triples (ts : list Triple) (p : Place) :
  In p (map place_of_triple (sorted triple_leb ts))
  <-> exists t, In t ts /\ p = place_of_triple t.
Proof.
  rewrite in_map_iff. split; intros (t & H1 & H2).
  - exists t. split; [|now symmetry].
    eapply Permutation_in; [apply sorted_perm|exact H2].
  - exists t. split; [now symmetry|].
    eapply Permutation_in; [symmetry; apply sorted_perm|exact H1].
Qed.

Lemma falsy_false_iff (x : option string) (s : string) :
  falsy x = false /\ unwrap x = s <-> x = Some s /\ s <> "".
Proof.
  destruct x as [[|c y]|]; simpl; split; intros [H1 H2];
    try discriminate; try (split; congruence); congruence.
Qed.

(** What a kept row with province name [pn] stores under its code. *)
Lemma row_places (record : RawRecord) (pn : option string) (p : Place) :
  (exists t,
     In t (collect_locations pn (district_id_to_name record) (subDistrictList record))
     /\ p = place_of_triple t)
  <-> province p = pn
      /\ exists sd,
           In sd (subDistrictList record)
           /\ subDistrictName sd = Some (district p)
           /\ district p <> ""
           /\ dict_get option_eqb (district_id_to_name record) (sd_districtId sd)
              = Some (Some (amphoe p))
           /\ amphoe p <> "".
Proof.
  split.
  - intros (t & Hin & ->). apply collect_locations_in in Hin as (sd & H1 & H2 & H3 & ->).
    simpl. split; [reflexivity|]. exists sd. split; [exact H1|].
    destruct (proj1 (falsy_false_iff (subDistrictName sd) _) (conj H2 eq_refl))
      as [E1 E2].
    destruct (dict_get option_eqb (district_id_to_name record) (sd_districtId sd))
      as [name|] eqn:E; [|discriminate].
    destruct (proj1 (falsy_false_iff name _) (conj H3 eq_refl)) as [E3 E4].
    repeat split; try assumption. now rewrite E3.
  - intros (Hp & sd & H1 & H2 & H3 & H4 & H5). destruct p as [pp pa pd]. simpl in *.
    exists (pn, pa, pd). split; [|now subst].
    apply collect_locations_in. exists sd. rewrite H4, H2. simpl.
    repeat split; try assumption; [now destruct pd|now destruct pa].
Qed.

Lemma build_loop_stored (rows : list RawRecord) (m0 m : Mapping) (c : string) (p : Place) :
  build_loop rows m0 = Ok m ->
  stored m c p <-> stored m0 c p \/ listed rows c p.
Proof.
  revert m0. induction rows as [|record rest IH]; intros m0; cbn [build_loop].
  - intros [= <-]. split; [tauto|]. intros [H|(r & sd & Hnil & _)]; [exact H|destruct Hnil].
  - fold (padded_code record). rewrite <- negb_andb. fold (kept record).
    destruct (kept record) eqn:Ek; cbn [negb].
    + fold (district_id_to_name record). fold (province_id_to_name record).
      destruct (pick_province (province_id_to_name record)) as [pn|] eqn:Ep;
        [|discriminate].
      intros Hm. rewrite (IH _ Hm), stored_append_all, place_of_sorted_triples,
        row_places.
      split.
      * intros [[H|(-> & Hp & sd & H)]|(r & sd & Hin & H)].
        -- now left.
        -- right. exists record, sd. rewrite Ep, Hp. split; [now left|]. tauto.
        -- right. exists r, sd. split; [now right|exact H].
      * intros [H|(r & sd & [<-|Hin] & H1 & H2 & H3 & H4)]; [tauto| |].
        -- left. right. rewrite Ep in H3. injection H3 as ->.
           split; [now symmetry|]. split; [reflexivity|]. exists sd. exact H4.
        -- right. exists r, sd. tauto.
    + intros Hm. rewrite (IH _ Hm). split.
      * intros [H|(r & sd & Hin & H)]; [now left|].
        right. exists r, sd. split; [now right|exact H].
      * intros [H|(r & sd & [<-|Hin] & H1 & H)]; [now left|congruence|].
        right. exists r, sd. tauto.
Qed.

(** X14: the builder stores a place under a code exactly when a kept row
    with that zero-padded code lists it: a subdistrict with a non-empty name
    whose district identifier resolves to a non-empty district name, with the
    row's province name.  Nothing else is stored and nothing listed is lost. *)
Theorem stored_iff_listed (rows : list RawRecord) (m : Mapping) :
  fetch_and_build_mapping rows = Ok m ->
  forall (c : string) (p : Place), stored m c p <-> listed rows c p.
Proof.
  intros Hm c p. rewrite (build_loop_stored rows [] m c p Hm).
  split; [|tauto]. intros [(locs & H & _)|H]; [discriminate|exact H].
Qed.

(** The same on the sample dataset. *)
Lemma stored_iff_listed_witness :
  fetch_and_build_mapping [sample_row] = Ok sample_mapping
  /\ (forall (c : string) (p : Place),
        stored sample_mapping c p <-> listed [sample_row] c p).
Proof.
  split; [reflexivity|].
  exact (stored_iff_listed [sample_row] sample_mapping eq_refl).
Defined.

(** * When the builder raises *)










(** * The index against the mapping *)

Lemma place_of_record_of (c : string) (loc : Place) : place_of (record_of c loc) = loc.
Proof. now destruct loc. Qed.

Lemma fold_left_map {A B C : Type} (f : A -> B -> A) (g : C -> B) (l : list C) (a : A) :
  fold_left f (map g l) a = fold_left (fun a x => f a (g x)) l a.
Proof. revert a. induction l as [|x t IH]; intros a; simpl; [reflexivity|apply IH]. Qed.

Lemma fold_left_same {A B : Type} (f g : A -> B -> A) (l : list B) (a : A) :
  (forall a x, f a x = g a x) -> fold_left f l a = fold_left g l a.
Proof.
  intros H. revert a. induction l as [|x t IH]; intros a; simpl; [reflexivity|].
  now rewrite H, IH.
Qed.

(** Grouping the records of a mapping by code gives the mapping back. *)
Lemma regroup (m d : Mapping) :
  NoDup (map fst d ++ map fst m) ->
  Forall (fun item => snd item <> []) m ->
  fold_left (fun g r => dict_append g (Rec.code r) (place_of r)) (build_records m) d
  = (d ++ m)%list.
Proof.
  revert d. induction m as [|[k locs] t IH]; intros d Hnd Hne.
  - simpl. now rewrite app_nil_r.
  - unfold build_records in *. cbn [flat_map fst snd]. rewrite fold_left_app.
    rewrite fold_left_map.
    rewrite (fold_left_same _ (fun g loc => dict_append g k ((fun x : Place => x) loc)))
      by (intros a x; now rewrite place_of_record_of).
    assert (Hk : ~ In k (map fst d)).
    { intros H. apply NoDup_remove_2 in Hnd. apply Hnd, in_app_iff. now left. }
    rewrite (append_all_fresh (fun x : Place => x) locs d k Hk).
    inversion Hne as [|? ? Hlocs Hne']; subst. simpl in Hlocs.
    destruct locs as [|p ps]; [congruence|]. rewrite map_id.
    rewrite IH; [now rewrite <- app_assoc| |exact Hne'].
    rewrite map_app. simpl. rewrite <- app_assoc. exact Hnd.
Qed.

Lemma reverse_filter_none (r : Rec.t) (fuzzy : bool) :
  reverse_filter "" "" "" fuzzy r = true.
Proof. reflexivity. Qed.

(** X16: flattening a built mapping into [RECORDS] and grouping them back
    loses nothing: the reverse lookup without any filter returns the whole
    mapping, its items sorted by code (and 404 for an empty mapping). *)
Theorem reverse_lookup_returns_mapping (rows : list RawRecord) (m : Mapping) :
  fetch_and_build_mapping rows = Ok m ->
  ReverseLookup_get (RECORDS (build_index m)) []
  = match m with
    | [] => (ErrorBody "No results found.", 404)
    | _ :: _ => (ReverseBody (sorted item_leb m), 200)
    end.
Proof.
  intros Hm. unfold ReverseLookup_get. rewrite reverse_loop_filter.
  cbn [build_index RECORDS args_get args_lookup dict_get].
  rewrite filter_all by (intros r; apply reverse_filter_none).
  rewrite (regroup m []).
  - now destruct m.
  - exact (proj1 (mapping_keys rows m Hm)).
  - eapply Forall_impl; [|exact (mapping_entry_ok rows m Hm)].
    intros item H. exact (proj1 H).
Qed.

(** The same on the sample dataset. *)
Lemma reverse_lookup_returns_mapping_witness :
  fetch_and_build_mapping [sample_row] = Ok sample_mapping
  /\ ReverseLookup_get (RECORDS (build_index sample_mapping)) []
     = (ReverseBody (sorted item_leb sample_mapping), 200).
Proof.
  split; [reflexivity|].
  exact (reverse_lookup_returns_mapping [sample_row] sample_mapping eq_refl).
Defined.

Lemma prefix_same_length (p s : string) :
  String.prefix p s = true -> String.length p = String.length s -> p = s.
Proof.
  intros H Hlen. apply prefix_iff in H as [post ->].
  assert (E : post = "").
  { revert Hlen. clear. induction p as [|c p IH]; simpl.
    - now destruct post.
    - intros H. apply IH. congruence. }
  subst post. clear. induction p; simpl; congruence.
Qed.

Lemma search_filter_code_only (code_q : string) (r : Rec.t) :
  search_filter code_q "" "" "" "" false r
  = (negb (Py.truthy code_q) || String.prefix code_q (Rec.code r)).
Proof. unfold search_filter. simpl. now rewrite !andb_true_r. Qed.

Lemma filter_map_all {A B : Type} (f : B -> bool) (g : A -> B) (l : list A) :
  (forall x, f (g x) = true) -> filter f (map g l) = map g l.
Proof.
  intros H. induction l as [|x t IH]; simpl; [reflexivity|]. now rewrite H, IH.
Qed.

Lemma filter_map_none {A B : Type} (f : B -> bool) (g : A -> B) (l : list A) :
  (forall x, f (g x) = false) -> filter f (map g l) = [].
Proof.
  intros H. induction l as [|x t IH]; simpl; [reflexivity|]. now rewrite H, IH.
Qed.

Lemma filter_records_by_code (m : Mapping) (c : string) :
  c <> "" ->
  NoDup (map fst m) ->
  Forall (fun k => String.length k = String.length c) (map fst m) ->
  filter (search_filter c "" "" "" "" false) (build_records m)
  = map (record_of c) match dict_get String.eqb m c with
                      | Some locs => locs
                      | None => []
                      end.
Proof.
  intros Hc. unfold build_records.
  assert (T : Py.truthy c = true) by (destruct c; [congruence|reflexivity]).
  induction m as [|[k locs] t IH]; intros Hnd Hlen; [reflexivity|].
  cbn [flat_map fst snd map dict_get] in *. rewrite filter_app.
  inversion Hnd as [|? ? Hnotin Hnd']; subst.
  inversion Hlen as [|? ? Hk Hlen']; subst.
  rewrite (IH Hnd' Hlen'). clear IH.
  destruct (String.eqb_spec k c) as [->|Hne].
  - rewrite (proj2 (dict_get_none t c) Hnotin). cbn [map]. rewrite app_nil_r.
    apply filter_map_all. intros loc. rewrite search_filter_code_only, T.
    apply prefix_refl.
  - rewrite filter_map_none; [reflexivity|].
    intros loc. rewrite search_filter_code_only, T. cbn [negb orb].
    destruct (String.prefix c (Rec.code (record_of k loc))) eqn:E; [|reflexivity].
    apply prefix_same_length in E; [|simpl; congruence]. simpl in E. congruence.
Qed.

(** X17: the search by a complete code agrees with the zipcode lookup: for
    a code of five digits, [/api/search?code=...] on the index of a built
    mapping reports as [total] the number of locations that the lookup of
    that code stores (0 for an unknown code), and returns them, tagged with
    the code and in the stored order, up to the default limit of 50. *)
Theorem search_by_code_is_lookup (rows : list RawRecord) (m : Mapping) (code : string) :
  fetch_and_build_mapping rows = Ok m ->
  Py.isdigit (Py.strip code) = true ->
  String.length (Py.strip code) = 5%nat ->
  let locations :=
    match dict_get String.eqb m (Py.strip code) with
    | Some locs => locs
    | None => []
    end in
  ForwardSearch_get (RECORDS (build_index m)) [("code", code)]
  = (SearchBody (len locations) 50 0
       (firstn 50 (map (fun loc => row_of (record_of (Py.strip code) loc)) locations)),
     200).
Proof.
  intros Hm Hd Hl locations. unfold ForwardSearch_get.
  cbn [build_index RECORDS].
  change (args_get [("code", code)] "code" "") with code.
  change (args_get [("code", code)] "province" "") with "".
  change (args_get [("code", code)] "amphoe" "") with "".
  change (args_get [("code", code)] "district" "") with "".
  change (args_get [("code", code)] "q" "") with "".
  change (flag (args_get [("code", code)] "fuzzy" "false")) with false.
  change (search_limit [("code", code)]) with 50.
  change (search_offset [("code", code)]) with 0.
  rewrite search_loop_filter. cbn [app].
  destruct (mapping_keys rows m Hm) as [Hnd Hkeys].
  rewrite filter_records_by_code.
  - fold locations. rewrite map_map, slice_window. cbn [Z.to_nat skipn].
    unfold len. now rewrite length_map.
  - intros E. rewrite E in Hl. discriminate.
  - exact Hnd.
  - eapply Forall_impl; [|exact Hkeys]. intros k H.
    apply andb_true_iff in H as [_ H]. apply Nat.eqb_eq in H. congruence.
Qed.

(** The same on the sample dataset, for the code [" 10110 "]. *)
Lemma search_by_code_is_lookup_witness :
  fetch_and_build_mapping [sample_row] = Ok sample_mapping
  /\ Py.isdigit (Py.strip " 10110 ") = true
  /\ String.length (Py.strip " 10110 ") = 5%nat
  /\ ForwardSearch_get (RECORDS (build_index sample_mapping)) [("code", " 10110 ")]
     = (SearchBody 3 50 0
          (map (fun loc => row_of (record_of "10110" loc)) (snd (hd ("", []) sample_mapping))),
        200).
Proof.
  split; [reflexivity|]. split; [reflexivity|]. split; [reflexivity|].
  exact (search_by_code_is_lookup [sample_row] sample_mapping " 10110 "
           eq_refl eq_refl eq_refl).
Defined.

Lemma sorted_distinct_in (xs : list string) (x : string) :
  In x (sorted_distinct xs) <-> In x xs /\ x <> "".
Proof.
  unfold sorted_distinct.
  rewrite (fold_left_same _
             (fun s y => if negb (Py.truthy y) then s else set_add String.eqb y s))
    by (intros a y; now destruct (Py.truthy y)).
  split.
  - intros H. eapply Permutation_in in H; [|apply sorted_perm].
    apply (fold_set_add_in String.eqb (fun y => negb (Py.truthy y)) (fun y => y)
             xs [] x String.eqb_eq) in H.
    destruct H as [[]|(y & H1 & H2 & ->)]. split; [exact H1|].
    apply negb_false_iff in H2. now apply truthy_true_iff.
  - intros [H1 H2]. eapply Permutation_in; [symmetry; apply sorted_perm|].
    apply (fold_set_add_in String.eqb (fun y => negb (Py.truthy y)) (fun y => y)
             xs [] x String.eqb_eq).
    right. exists x. split; [exact H1|]. split; [|reflexivity].
    apply negb_false_iff. now apply truthy_true_iff.
Qed.

Lemma names_in (f : Rec.t -> string) (records : list Rec.t) (x : string) :
  In x (sorted_distinct (map f records))
  <-> x <> "" /\ exists r, In r records /\ f r = x.
Proof.
  rewrite sorted_distinct_in, in_map_iff. split.
  - intros [(r & H1 & H2) H3]. split; [exact H3|]. exists r. tauto.
  - intros [H3 (r & H1 & H2)]. split; [|exact H3]. exists r. tauto.
Qed.

(** X18: the four lists of the index of a built mapping are strictly
    ascending (sorted, without repetition); the codes are exactly the keys of
    the mapping, and the names are exactly the non-empty provinces, amphoes
    and districts that occur in [RECORDS]. *)
Theorem index_lists_complete (rows : list RawRecord) (m : Mapping) :
  fetch_and_build_mapping rows = Ok m ->
  let idx := build_index m in
  (StronglySorted str_lt (UNIQUE_ZIPCODES idx)
   /\ StronglySorted str_lt (UNIQUE_PROVINCES idx)
   /\ StronglySorted str_lt (UNIQUE_AMPHOES idx)
   /\ StronglySorted str_lt (UNIQUE_DISTRICTS idx))
  /\ (forall z, In z (UNIQUE_ZIPCODES idx) <-> In z (map fst m))
  /\ (forall x, In x (UNIQUE_PROVINCES idx)
                <-> x <> "" /\ exists r, In r (RECORDS idx) /\ Rec.province r = Some x)
  /\ (forall x, In x (UNIQUE_AMPHOES idx)
                <-> x <> "" /\ exists r, In r (RECORDS idx) /\ Rec.amphoe r = x)
  /\ (forall x, In x (UNIQUE_DISTRICTS idx)
                <-> x <> "" /\ exists r, In r (RECORDS idx) /\ Rec.district r = x).
Proof.
  intros Hm idx. split; [exact (index_lists_sorted rows m Hm)|].
  unfold idx. cbn [build_index UNIQUE_ZIPCODES UNIQUE_PROVINCES UNIQUE_AMPHOES
                     UNIQUE_DISTRICTS RECORDS].
  split; [|split; [|split]].
  - intros z. split; intros H.
    + eapply Permutation_in; [apply sorted_perm|exact H].
    + eapply Permutation_in; [symmetry; apply sorted_perm|exact H].
  - intros x. rewrite names_in. split; intros [H1 (r & H2 & H3)];
      (split; [exact H1|]); exists r; (split; [exact H2|]).
    + destruct (Rec.province r) as [y|]; simpl in H3; congruence.
    + now rewrite H3.
  - intros x. apply names_in.
  - intros x. apply names_in.
Qed.

(** The same on the sample dataset. *)
Lemma index_lists_complete_witness :
  fetch_and_build_mapping [sample_row] = Ok sample_mapping
  /\ (StronglySorted str_lt (UNIQUE_ZIPCODES (build_index sample_mapping))
      /\ StronglySorted str_lt (UNIQUE_PROVINCES (build_index sample_mapping))
      /\ StronglySorted str_lt (UNIQUE_AMPHOES (build_index sample_mapping))
      /\ StronglySorted str_lt (UNIQUE_DISTRICTS (build_index sample_mapping))).
Proof.
  split; [reflexivity|].
  exact (proj1 (index_lists_complete [sample_row] sample_mapping eq_refl)).
Defined.

(** * The shape of a normalized text *)

Lemma sub_ws_only_spaces (b : bool) (s : string) (c : ascii) :
  In c (list_ascii_of_string (Py.sub_ws b s)) -> Py.isspace_char c = true -> c = " "%char.
Proof.
  revert b. induction s as [|x t IH]; intros b; [simpl; intros []|].
  rewrite TextFacts.sub_ws_cons. destruct (Py.isspace_char x) eqn:E.
  - destruct b; [apply IH|]. simpl.
    intros [<-|H] Hc; [reflexivity|now apply (IH true)].
  - simpl. intros [<-|H] Hc; [congruence|now apply (IH false)].
Qed.

Lemma sub_ws_in_run_head (s : string) : starts_ok (Py.sub_ws true s) = true.
Proof.
  induction s as [|x t IH]; [reflexivity|]. rewrite TextFacts.sub_ws_cons.
  destruct (Py.isspace_char x) eqn:E; [exact IH|]. simpl. now rewrite E.
Qed.

Lemma prefix_two_spaces (c : ascii) (s : string) :
  String.prefix "  " (String c s) = true ->
  c = " "%char /\ starts_ok s = false.
Proof.
  intros H. apply prefix_iff in H as [post H]. simpl in H.
  injection H as -> ->. now split.
Qed.

Lemma sub_ws_no_double_space (b : bool) (s : string) :
  Py.contains (Py.sub_ws b s) "  " = false.
Proof.
  revert b. induction s as [|x t IH]; intros b; [reflexivity|].
  rewrite TextFacts.sub_ws_cons. destruct (Py.isspace_char x) eqn:E.
  - destruct b; [apply IH|]. cbn [Py.contains]. rewrite IH, orb_false_r.
    destruct (String.prefix "  " (String " " (Py.sub_ws true t))) eqn:P;
      [|reflexivity].
    apply prefix_two_spaces in P as [_ P]. now rewrite sub_ws_in_run_head in P.
  - cbn [Py.contains]. rewrite IH, orb_false_r.
    destruct (String.prefix "  " (String x (Py.sub_ws false t))) eqn:P;
      [|reflexivity].
    apply prefix_two_spaces in P as [-> _]. discriminate.
Qed.

(** X19: a normalized text is trimmed, in lower case and single-spaced: it
    is its own [strip] and its own [lower], its only whitespace characters
    are spaces, and it never holds two spaces in a row. *)
Theorem normalize_text_shape (text : option string) :
  let u := normalize_text text in
  Py.strip u = u
  /\ Py.lower u = u
  /\ (forall c, In c (list_ascii_of_string u) -> Py.isspace_char c = true -> c = " "%char)
  /\ Py.contains u "  " = false.
Proof.
  destruct text as [x|]; [|now repeat split].
  cbv zeta. unfold normalize_text. repeat split.
  - unfold Py.strip at 1.
    rewrite TextFacts.lstrip_fixed, TextFacts.rstrip_fixed; [reflexivity| |].
    + apply TextFacts.ends_ok_sub_ws. rewrite TextFacts.ends_ok_lower.
      apply TextFacts.ends_ok_rstrip.
    + apply TextFacts.starts_ok_sub_ws. rewrite TextFacts.starts_ok_lower.
      apply TextFacts.starts_ok_rstrip, TextFacts.starts_ok_lstrip.
  - now rewrite TextFacts.sub_ws_lower, TextFacts.lower_idem.
  - apply sub_ws_only_spaces.
  - apply sub_ws_no_double_space.
Qed.
